(** * Polymarket arbitrage bot: scanner, virtual trader, ledger, scan loop

    A shallow embedding of [scanner.py], [trader.py], [config.py] and of the
    trading loop of [main.py], with the properties of the specification
    proved (or refuted) over it.

    Numbers.  Python floats are read as exact rationals ([Qc], canonical
    fractions, so that equality is Leibniz equality).  The one non-finite
    float the sources produce themselves, [float('inf')] in
    [Market.hours_until_end], is kept as a constructor of [hours].  NaN and
    rounding are outside the model.

    Exceptions.  A function that can raise returns a [result]; a
    [try/except] that swallows everything becomes a [match] on an [option].

    Environment.  The interpreter's [float(str)], [json.loads] and the
    clock-dependent parse of [end_date] are the fields of the class
    [Builtins]: the theorems hold for every instance of it. *)

From Stdlib Require Import Ascii String QArith Qcanon Lqa.
From stdpp Require Import base option numbers list strings gmap sorting.

Set Warnings "-register-all".
Local Open Scope Qc_scope.

(** ** Python values and exceptions *)

Inductive exn : Type :=
  | ZeroDivisionError
  | KeyError
  | TypeError
  | ValueError.

Inductive result (A : Type) : Type :=
  | Ok (a : A)
  | Raise (e : exn).
Arguments Ok {A} a.
Arguments Raise {A} e.

#[global] Instance result_ret : MRet result := fun A a => Ok a.

#[global] Instance result_bind : MBind result := fun A B k r =>
  match r with
  | Ok a => k a
  | Raise e => Raise e
  end.

(** What [json.loads] can produce (and so what a raw API record holds). *)
Inductive pyval : Type :=
  | JNull
  | JBool (b : bool)
  | JNum (q : Qc)
  | JStr (s : string)
  | JList (l : list pyval)
  | JDict (d : gmap string pyval).

(** Python truthiness: [bool(v)]. *)
Definition truthy (v : pyval) : bool :=
  match v with
  | JNull => false
  | JBool b => b
  | JNum q => bool_decide (q <> 0)
  | JStr s => bool_decide (s <> EmptyString)
  | JList l => bool_decide (l <> [])
  | JDict d => bool_decide (d <> ∅)
  end.

(** [a or b] *)
Definition py_or (a b : pyval) : pyval := if truthy a then a else b.

(** [len(v)]: [None] is the TypeError of an unsized value. *)
Definition py_len (v : pyval) : option nat :=
  match v with
  | JList l => Some (length l)
  | JStr s => Some (String.length s)
  | JDict d => Some (size d)
  | _ => None
  end.

(** [v[i]] for a non-negative literal index: [None] is the IndexError,
    KeyError (the keys of a JSON object are strings, never [i]) or
    TypeError. *)
Definition py_getitem (v : pyval) (i : nat) : option pyval :=
  match v with
  | JList l => l !! i
  | JStr s => match String.get i s with
              | Some c => Some (JStr (String c EmptyString))
              | None => None
              end
  | _ => None
  end.

(** Python's [a / b] on floats. *)
Definition py_div (a b : Qc) : result Qc :=
  if bool_decide (b = 0) then Raise ZeroDivisionError else Ok (a / b).

(** Python's two-argument [max]: the first argument unless the second is
    strictly greater. *)
Definition py_max (a b : Qc) : Qc := if bool_decide (a < b) then b else a.

(** ** config.py *)

Record Config : Type := {
  VIRTUAL_BALANCE : Qc;
  MAX_TRADES_PER_RUN : nat;
  MIN_PROBABILITY : Qc;
  MAX_PROBABILITY : Qc;
  MAX_HOURS_UNTIL_END : Qc;
  MIN_VOLUME : Qc;
  MAX_FEE : Qc;
  TRADE_AMOUNT : Qc
}.

Definition config : Config := {|
  VIRTUAL_BALANCE := Q2Qc 1000;
  MAX_TRADES_PER_RUN := 5;
  MIN_PROBABILITY := Q2Qc (90 # 100);
  MAX_PROBABILITY := Q2Qc (98 # 100);
  MAX_HOURS_UNTIL_END := Q2Qc 4;
  MIN_VOLUME := Q2Qc 1000;
  MAX_FEE := 0;
  TRADE_AMOUNT := Q2Qc 5
|}.

(** ** scanner.py: the Market dataclass *)

(** [hours_until_end] is a float that can be [float('inf')]. *)
Inductive hours : Type :=
  | Fin (h : Qc)
  | Inf.

(** [h <= x] and [h > x] for a finite [x]. *)
Definition hours_le (h : hours) (x : Qc) : bool :=
  match h with
  | Fin q => bool_decide (q <= x)
  | Inf => false
  end.

Definition hours_gt (h : hours) (x : Qc) : bool :=
  match h with
  | Fin q => bool_decide (x < q)
  | Inf => true
  end.

Inductive Outcome : Type := YES | NO.

(** The text fields are typed as the dataclass declares them ([str]);
    [outcome_prices] and [fee] stay loosely typed, since the code guards
    every use of them with [try/except]. *)
Record Market : Type := {
  id : string;
  question : string;
  end_date : string;
  outcome_prices : pyval;
  volume : Qc;
  liquidity : Qc;
  fee : pyval;
  clob_token_ids : pyval;
  closed : bool;
  accepting_orders : bool;
  start_date : string;
  created_at : string
}.

Class Builtins : Type := {
  (** [float(s)] on a string: [None] when it raises ValueError. *)
  str_to_float : string -> option Qc;
  (** [json.loads(s)]: [None] when it raises. *)
  json_loads : string -> option pyval;
  (** The body of the [try] in [hours_until_end] for a non-empty
      [end_date]: strip the zone suffix, [datetime.fromisoformat], subtract
      [datetime.now]; [None] when any of it raises.  The clock is read as
      one instant for the whole of a filter pass. *)
  hours_from_now : string -> option Qc
}.

Section Scanner.

Context `{Builtins}.

(** [float(v)]: [None] when it raises (ValueError or TypeError). *)
Definition py_float (v : pyval) : option Qc :=
  match v with
  | JNum q => Some q
  | JBool b => Some (if b then 1 else 0)
  | JStr s => str_to_float s
  | _ => None
  end.

(** [float(prices[i]) if len(prices) > i else 0.0], with every exception
    turned into [0.0]. *)
Definition price_at (prices : pyval) (i : nat) : Qc :=
  match py_len prices with
  | Some n =>
      if bool_decide (i < n)%nat
      then match py_getitem prices i with
           | Some v => default 0 (py_float v)
           | None => 0
           end
      else 0
  | None => 0
  end.

Definition yes_price (m : Market) : Qc := price_at (outcome_prices m) 0.
Definition no_price (m : Market) : Qc := price_at (outcome_prices m) 1.

Definition hours_until_end (m : Market) : hours :=
  if bool_decide (end_date m = EmptyString) then Inf
  else match hours_from_now (end_date m) with
       | Some h => Fin h
       | None => Inf
       end.

Definition max_probability (m : Market) : Qc :=
  py_max (yes_price m) (no_price m).

Definition high_probability_outcome (m : Market) : Outcome :=
  if bool_decide (no_price m <= yes_price m) then YES else NO.

Definition high_probability_price (m : Market) : Qc :=
  py_max (yes_price m) (no_price m).

(** *** MarketScanner.parse_market *)

(** One raw record of the API.  A field is [None] when the key is
    absent.  The text fields hold text in every record the API serves
    ([fetch_markets] already calls [.lower()] on [question]); the others
    are whatever JSON value arrived. *)
Record RawMarket : Type := {
  r_id : option string;
  r_question : option string;
  r_endDate : option string;
  r_outcomePrices : option pyval;
  r_clobTokenIds : option pyval;
  r_volume : option pyval;
  r_liquidity : option pyval;
  r_fee : option pyval;
  r_closed : option pyval;
  r_acceptingOrders : option pyval;
  r_startDate : option string;
  r_createdAt : option string
}.

Definition ascii_lower (c : ascii) : ascii :=
  let n := nat_of_ascii c in
  if bool_decide (65 <= n <= 90)%nat then ascii_of_nat (n + 32) else c.

Fixpoint lower (s : string) : string :=
  match s with
  | EmptyString => EmptyString
  | String c s' => String (ascii_lower c) (lower s')
  end.

Definition parse_bool (val : option pyval) : bool :=
  match val with
  | Some (JBool b) => b
  | Some (JStr s) => bool_decide (lower s = "true"%string)
  | _ => false
  end.

(** [json.loads(data[key])] guarded by [if data.get(key)] and by its own
    [try/except]: anything but a decodable string gives the empty list. *)
Definition decode_json_field (field : option pyval) : pyval :=
  match field with
  | Some v =>
      if truthy v
      then match v with
           | JStr s => default (JList []) (json_loads s)
           | _ => JList []
           end
      else JList []
  | None => JList []
  end.

(** [float(data.get(key, 0) or 0)] *)
Definition numeric_field (field : option pyval) : option Qc :=
  py_float (py_or (default (JNum 0) field) (JNum 0)).

(** [None] is the path through the outer [except]: a warning is logged
    and the record is skipped by [scan]. *)
Definition parse_market (data : RawMarket) : option Market :=
  let outcome_prices := decode_json_field (r_outcomePrices data) in
  let clob_token_ids := decode_json_field (r_clobTokenIds data) in
  match numeric_field (r_volume data) with
  | Some volume =>
      match numeric_field (r_liquidity data) with
      | Some liquidity =>
          Some {| id := default EmptyString (r_id data);
                  question := default EmptyString (r_question data);
                  end_date := default EmptyString (r_endDate data);
                  outcome_prices := outcome_prices;
                  volume := volume;
                  liquidity := liquidity;
                  fee := default (JStr "0") (r_fee data);
                  clob_token_ids := clob_token_ids;
                  closed := parse_bool (r_closed data);
                  accepting_orders :=
                    parse_bool (Some (default (JBool true)
                                              (r_acceptingOrders data)));
                  start_date := default EmptyString (r_startDate data);
                  created_at := default EmptyString (r_createdAt data) |}
      | None => None
      end
  | None => None
  end.

(** *** MarketScanner.filter_markets *)

(** [float(market.fee) if market.fee else 0]: [None] when it raises. *)
Definition parsed_fee (m : Market) : option Qc :=
  if truthy (fee m) then py_float (fee m) else Some 0.

(** The fee check: [true] when the loop [continue]s.  A fee that does not
    convert raises inside the [try] and falls to [except: pass]. *)
Definition fee_rejects (cfg : Config) (m : Market) : bool :=
  match parsed_fee m with
  | Some f => bool_decide (MAX_FEE cfg < f)
  | None => false
  end.

(** The body of the [for] loop: [false] on each [continue], [true] when
    the market reaches [filtered.append]. *)
Definition keeps (cfg : Config) (market : Market) : bool :=
  if closed market || negb (accepting_orders market) then false
  else if hours_le (hours_until_end market) 0 then false
  else if hours_gt (hours_until_end market) (MAX_HOURS_UNTIL_END cfg)
  then false
  else if bool_decide (max_probability market < MIN_PROBABILITY cfg)
  then false
  else if bool_decide (MAX_PROBABILITY cfg < max_probability market)
  then false
  else if fee_rejects cfg market then false
  else if bool_decide (volume market < MIN_VOLUME cfg) then false
  else true.

Fixpoint filter_loop (cfg : Config) (markets filtered : list Market)
  : list Market :=
  match markets with
  | [] => filtered
  | market :: rest =>
      filter_loop cfg rest
        (if keeps cfg market then filtered ++ [market] else filtered)
  end.

(** [list.sort(key=...)] is a stable sort that compares keys with [<].
    It is modelled by the stable insertion sort: an element goes in front
    of the first later element whose key is not strictly smaller. *)
Fixpoint insert_by_price (m : Market) (l : list Market) : list Market :=
  match l with
  | [] => [m]
  | x :: l' =>
      if bool_decide (high_probability_price x < high_probability_price m)
      then x :: insert_by_price m l'
      else m :: x :: l'
  end.

Definition sort_by_price (l : list Market) : list Market :=
  foldr insert_by_price [] l.

Definition filter_markets (cfg : Config) (markets : list Market)
  : list Market :=
  let filtered := filter_loop cfg markets [] in
  let filtered := sort_by_price filtered in
  take (MAX_TRADES_PER_RUN cfg) filtered.

Record ScanStats : Type := {
  total_api : nat;
  total_parsed : nat;
  non_crypto : nat;
  filtered_count : nat
}.

(** [scan], given what [fetch_markets] returned. *)
Definition scan (cfg : Config) (markets_data : list RawMarket)
  : list Market * ScanStats :=
  let markets := omap parse_market markets_data in
  let filtered := filter_markets cfg markets in
  (take (MAX_TRADES_PER_RUN cfg) filtered,
   {| total_api := length markets_data;
      total_parsed := length markets;
      non_crypto := length markets;
      filtered_count := length filtered |}).

End Scanner.

(** ** trader.py *)

Record PlannedTrade : Type := {
  pt_market_id : string;
  pt_question : string;
  pt_outcome : Outcome;
  pt_price : Qc;
  pt_amount : Qc;
  pt_reason : string
}.

Record ExecutedTrade : Type := {
  market_id : string;
  trade_question : string;
  outcome : Outcome;
  price : Qc;
  amount : Qc;
  cost : Qc;
  timestamp : string;
  status : string;
  trade_start_date : string;
  trade_end_date : string;
  trade_created_at : string
}.

(** An entry of [VirtualTrader.positions] (a dict with these keys). *)
Record Position : Type := {
  pos_market_id : string;
  pos_question : string;
  pos_outcome : Outcome;
  pos_price : Qc;
  pos_shares : Qc;
  pos_cost : Qc;
  potential_payout : Qc;
  profit_if_win : Qc;
  pos_timestamp : string
}.

Record VirtualTrader : Type := {
  balance : Qc;
  initial_balance : Qc;
  positions : list Position;
  trade_history : list ExecutedTrade
}.

(** [VirtualTrader.__init__] *)
Definition new_trader (initial : Qc) : VirtualTrader :=
  {| balance := initial;
     initial_balance := initial;
     positions := [];
     trade_history := [] |}.

Section Trader.

Context `{Builtins}.

(** [execute_trade(market, amount)] at clock reading [now].  The result
    pairs the returned value ([None] or the trade) with the trader after
    the call; when the call raises, the trader is as before the call,
    since the division comes before every assignment to [self]. *)
Definition execute_trade (cfg : Config) (self : VirtualTrader)
    (market : Market) (amount : option Qc) (now : string)
  : result (option ExecutedTrade * VirtualTrader) :=
  let amount := default (TRADE_AMOUNT cfg) amount in
  let outcome := high_probability_outcome market in
  let price := high_probability_price market in
  let shares_count := Q2Qc 5 in
  let cost := price * shares_count in
  shares ← py_div cost price;
  if bool_decide (balance self < cost) then Ok (None, self)
  else
    let trade :=
      {| market_id := id market;
         trade_question := question market;
         outcome := outcome;
         price := price;
         amount := shares;
         cost := cost;
         timestamp := now;
         status := "simulated";
         trade_start_date := start_date market;
         trade_end_date := end_date market;
         trade_created_at := created_at market |} in
    let position :=
      {| pos_market_id := id market;
         pos_question := question market;
         pos_outcome := outcome;
         pos_price := price;
         pos_shares := shares;
         pos_cost := cost;
         potential_payout := shares;
         profit_if_win := shares - cost;
         pos_timestamp := timestamp trade |} in
    Ok (Some trade,
        {| balance := balance self - cost;
           initial_balance := initial_balance self;
           positions := positions self ++ [position];
           trade_history := trade_history self ++ [trade] |}).

(** [sum(...)] over floats, from the left, starting at 0. *)
Definition py_sum (l : list Qc) : Qc := foldl Qcplus 0 l.

Definition get_balance (self : VirtualTrader) : Qc := balance self.

Definition get_total_invested (self : VirtualTrader) : Qc :=
  py_sum (pos_cost <$> positions self).

Definition get_potential_payout (self : VirtualTrader) : Qc :=
  py_sum (potential_payout <$> positions self).


(** The trader after one call, whether it returned or raised. *)
Definition after_call (cfg : Config) (self : VirtualTrader)
    (call : Market * option Qc * string) : VirtualTrader :=
  let '(market, amount, now) := call in
  match execute_trade cfg self market amount now with
  | Ok (_, self') => self'
  | Raise _ => self
  end.

(** Every trader state seen along a sequence of calls, the first one
    included. *)
Fixpoint states_along (cfg : Config) (self : VirtualTrader)
    (calls : list (Market * option Qc * string)) : list VirtualTrader :=
  match calls with
  | [] => [self]
  | call :: rest => self :: states_along cfg (after_call cfg self call) rest
  end.

End Trader.

(** *** The ledger: TradeRecorder *)

(** A trade as the ledger file holds it: [ExecutedTrade.to_dict()], plus
    the two keys that settlement adds. *)
Record TradeEntry : Type := {
  entry_trade : ExecutedTrade;
  settled : option pyval;
  resolution : option pyval
}.

Definition to_dict (t : ExecutedTrade) : TradeEntry :=
  {| entry_trade := t; settled := None; resolution := None |}.

Record Summary : Type := {
  markets_scanned : nat;
  trades_planned : nat;
  trades_executed : nat;
  sum_total_invested : Qc;
  sum_potential_payout : Qc;
  sum_balance_after : Qc
}.

(** The dict [run_once] hands to [record_run]. *)
Record RunData : Type := {
  balance_before : Qc;
  balance_after : Qc;
  planned_trades : list PlannedTrade;
  executed_trades : list TradeEntry;
  scan_info : ScanStats;
  summary : Summary
}.

Record RunRecord : Type := {
  run_id : string;
  run_timestamp : string;
  virtual_balance_before : Qc;
  run_planned_trades : list PlannedTrade;
  run_executed_trades : list TradeEntry;
  run_scan_info : ScanStats;
  run_summary : Summary
}.

(** [TradeRecorder.trades], which is also the content of the file. *)
Record Ledger : Type := {
  runs : list RunRecord;
  total_invested : Qc;
  total_payout : Qc;
  win_count : nat;
  loss_count : nat
}.

(** What [_load] returns when there is no readable file. *)
Definition empty_ledger : Ledger :=
  {| runs := []; total_invested := 0; total_payout := 0;
     win_count := 0; loss_count := 0 |}.

Definition _load (file : option Ledger) : Ledger :=
  default empty_ledger file.

(** [record_run(run_data)], with the generated [uuid] prefix and the clock
    reading as arguments.  Returns the recorder's [trades] after the call;
    [_save] writes exactly that to the file. *)
Definition record_run (trades : Ledger) (run_data : RunData)
    (uuid now : string) : Ledger :=
  let run_record :=
    {| run_id := uuid;
       run_timestamp := now;
       virtual_balance_before := balance_before run_data;
       run_planned_trades := planned_trades run_data;
       run_executed_trades := executed_trades run_data;
       run_scan_info := scan_info run_data;
       run_summary := summary run_data |} in
  let runs' := runs trades ++ [run_record] in
  let executed := executed_trades run_data in
  {| runs := runs';
     total_invested :=
       if bool_decide (executed <> [])
       then total_invested trades
            + py_sum ((fun t => amount (entry_trade t)) <$> executed)
       else total_invested trades;
     total_payout := total_payout trades;
     win_count := win_count trades;
     loss_count := loss_count trades |}.

(** Every executed trade stored in the ledger, in order. *)
Definition ledger_trades (data : Ledger) : list TradeEntry :=
  concat (run_executed_trades <$> runs data).

(** *** MarketScanner.check_settlements *)

Record Settlement : Type := {
  resolved : list TradeEntry;
  unresolved : list TradeEntry;
  newly_resolved : list TradeEntry
}.

Definition no_settlement : Settlement :=
  {| resolved := []; unresolved := []; newly_resolved := [] |}.

(** [t.get('settled')] as a condition *)
Definition is_settled (t : TradeEntry) : bool :=
  truthy (default JNull (settled t)).

(** The two nested [for] loops that collect the unsettled trades. *)
Definition collect_unsettled (data : Ledger) : list TradeEntry :=
  concat ((fun run => filter (fun t => is_settled t = false)
                             (run_executed_trades run)) <$> runs data).

(** The de-duplication loop; [unique] is the insertion-ordered dict. *)
Fixpoint dedupe (all_trades : list TradeEntry)
    (unique : list (string * TradeEntry)) : list (string * TradeEntry) :=
  match all_trades with
  | [] => unique
  | t :: rest =>
      let mid := market_id (entry_trade t) in
      dedupe rest
        (if bool_decide (mid <> EmptyString)
            && bool_decide (mid ∉ unique.*1)
         then unique ++ [(mid, t)]
         else unique)
  end.

(** [str(resolution) != 'null'], for a truthy [resolution]: only the
    string ["null"] prints as [null]. *)
Definition str_is_null (v : pyval) : bool :=
  match v with
  | JStr s => bool_decide (s = "null"%string)
  | _ => false
  end.

Definition mark (trade : TradeEntry) (res : pyval) : TradeEntry :=
  {| entry_trade := entry_trade trade;
     settled := Some (JBool true);
     resolution := Some res |}.

(** The body of the query loop for one market.  [response] is what
    [GET /markets/{mid}] decoded to, [None] when the request or the
    decoding raised; a response that is not an object raises at [.get]. *)
Definition classify (response : option pyval) (trade : TradeEntry)
    (acc : Settlement) : Settlement :=
  match response with
  | Some (JDict market) =>
      let is_closed := default (JBool false) (market !! "closed") in
      let res := default JNull (market !! "resolution") in
      if truthy is_closed && truthy res && negb (str_is_null res) then
        let result := mark trade res in
        {| resolved := resolved acc ++ [result];
           unresolved := unresolved acc;
           newly_resolved :=
             if is_settled trade then newly_resolved acc
             else newly_resolved acc ++ [result] |}
      else if truthy is_closed then
        let result := mark trade (JStr "CANCELLED") in
        {| resolved := resolved acc ++ [result];
           unresolved := unresolved acc;
           newly_resolved :=
             if is_settled trade then newly_resolved acc
             else newly_resolved acc ++ [result] |}
      else
        {| resolved := resolved acc;
           unresolved := unresolved acc ++ [trade];
           newly_resolved := newly_resolved acc |}
  | _ =>
      {| resolved := resolved acc;
         unresolved := unresolved acc ++ [trade];
         newly_resolved := newly_resolved acc |}
  end.

(** The query loop.  [calls] is the trace of outbound requests: the
    market ids asked for, in order. *)
Fixpoint query_loop (api : string -> option pyval)
    (unique : list (string * TradeEntry)) (acc : Settlement)
    (calls : list string) : Settlement * list string :=
  match unique with
  | [] => (acc, calls)
  | (mid, trade) :: rest =>
      query_loop api rest (classify (api mid) trade acc) (calls ++ [mid])
  end.

(** [check_settlements(trades_file)]: the file is [None] when it does not
    exist.  Returns the dict and the trace of outbound requests. *)
Definition check_settlements (trades_file : option Ledger)
    (api : string -> option pyval) : Settlement * list string :=
  match trades_file with
  | None => (no_settlement, [])
  | Some data =>
      let all_trades := collect_unsettled data in
      if bool_decide (all_trades = []) then (no_settlement, [])
      else query_loop api (dedupe all_trades []) no_settlement []
  end.

(** ** main.py: one scan cycle *)

(** The three log lines of the trading loop; there is one [LogExecuted]
    or [LogFailed] per call of [execute_trade], in order. *)
Inductive LogLine : Type :=
  | LogInsufficient
  | LogExecuted (t : ExecutedTrade)
  | LogFailed (m : Market).

Record LoopState : Type := {
  loop_trader : VirtualTrader;
  loop_executed : list TradeEntry;
  loop_log : list LogLine
}.

Record ArbitrageBot : Type := {
  trader : VirtualTrader;
  recorder : Ledger;
  trades_file : option Ledger
}.

(** What one call of [run_once] did: the settlement dict and its
    requests, the loop's log lines, and the returned run data or the
    exception that left [run_once]. *)
Record Cycle : Type := {
  cycle_settlement : Settlement;
  cycle_requests : list string;
  cycle_log : list LogLine;
  cycle_result : result RunData
}.

Section Main.

Context `{Builtins}.

(** Step 3 of [run_once]: [for market in markets], with the balance check
    and its [break], the call, and the two branches on its result.  The
    second component is the exception that left the loop, if any; the
    state is the one reached when it was raised. *)
Fixpoint trade_loop (cfg : Config) (markets : list Market) (now : string)
    (st : LoopState) : LoopState * option exn :=
  match markets with
  | [] => (st, None)
  | market :: rest =>
      if bool_decide (get_balance (loop_trader st) < TRADE_AMOUNT cfg)
      then
        ({| loop_trader := loop_trader st;
            loop_executed := loop_executed st;
            loop_log := loop_log st ++ [LogInsufficient] |}, None)
      else
        match execute_trade cfg (loop_trader st) market None now with
        | Raise e => (st, Some e)
        | Ok (Some executed, trader') =>
            trade_loop cfg rest now
              {| loop_trader := trader';
                 loop_executed := loop_executed st ++ [to_dict executed];
                 loop_log := loop_log st ++ [LogExecuted executed] |}
        | Ok (None, trader') =>
            trade_loop cfg rest now
              {| loop_trader := trader';
                 loop_executed := loop_executed st;
                 loop_log := loop_log st ++ [LogFailed market] |}
        end
  end.

(** The planned trade of step 2; the free-text [reason] is left empty. *)
Definition plan (cfg : Config) (market : Market) : PlannedTrade :=
  {| pt_market_id := id market;
     pt_question := question market;
     pt_outcome := high_probability_outcome market;
     pt_price := high_probability_price market;
     pt_amount := TRADE_AMOUNT cfg;
     pt_reason := EmptyString |}.

(** [run_once], given what the API answers in this cycle ([api] for the
    settlement queries, [markets_data] for the market list), the clock
    reading and the generated run id.  The dict returned when no market
    qualifies has no [summary] key; the record carries an empty one. *)
Definition run_once (cfg : Config) (bot : ArbitrageBot)
    (api : string -> option pyval) (markets_data : list RawMarket)
    (now uuid : string) : Cycle * ArbitrageBot :=
  let '(settlement, requests) := check_settlements (trades_file bot) api in
  let balance_before := get_balance (trader bot) in
  let '(markets, scan_stats) := scan cfg markets_data in
  if bool_decide (markets = []) then
    ({| cycle_settlement := settlement;
        cycle_requests := requests;
        cycle_log := [];
        cycle_result :=
          Ok {| balance_before := balance_before;
                balance_after := balance_before;
                planned_trades := [];
                executed_trades := [];
                scan_info := scan_stats;
                summary := {| markets_scanned := 0;
                              trades_planned := 0;
                              trades_executed := 0;
                              sum_total_invested := 0;
                              sum_potential_payout := 0;
                              sum_balance_after := balance_before |} |} |},
     bot)
  else
    let planned := plan cfg <$> markets in
    let '(st, raised) :=
      trade_loop cfg markets now
        {| loop_trader := trader bot; loop_executed := [];
           loop_log := [] |} in
    match raised with
    | Some e =>
        ({| cycle_settlement := settlement;
            cycle_requests := requests;
            cycle_log := loop_log st;
            cycle_result := Raise e |},
         {| trader := loop_trader st;
            recorder := recorder bot;
            trades_file := trades_file bot |})
    | None =>
        let balance_after := get_balance (loop_trader st) in
        let run_data :=
          {| balance_before := balance_before;
             balance_after := balance_after;
             planned_trades := planned;
             executed_trades := loop_executed st;
             scan_info := scan_stats;
             summary :=
               {| markets_scanned := length markets;
                  trades_planned := length planned;
                  trades_executed := length (loop_executed st);
                  sum_total_invested := get_total_invested (loop_trader st);
                  sum_potential_payout :=
                    get_potential_payout (loop_trader st);
                  sum_balance_after := balance_after |} |} in
        let trades' := record_run (recorder bot) run_data uuid now in
        ({| cycle_settlement := settlement;
            cycle_requests := requests;
            cycle_log := loop_log st;
            cycle_result := Ok run_data |},
         {| trader := loop_trader st;
            recorder := trades';
            trades_file := Some trades' |})
  end.

End Main.

(** ** A concrete environment and sample data

    The examples below run the definitions in this environment: plain
    decimal literals for [float(str)], the JSON texts the samples use, and a clock standing at 2026-01-01T00:00:00Z. *)

Definition digit_of (c : ascii) : option Z :=
  let n := nat_of_ascii c in
  if bool_decide (48 <= n <= 57)%nat then Some (Z.of_nat (n - 48)) else None.

(** Digits with at most one point and at least one digit. *)
Fixpoint read_decimal (s : string) (num : Z) (den : positive)
    (after_point seen_digit : bool) : option Qc :=
  match s with
  | EmptyString => if seen_digit then Some (Q2Qc (num # den)) else None
  | String c s' =>
      if bool_decide (c = "."%char)
      then if after_point then None
           else read_decimal s' num den true seen_digit
      else match digit_of c with
           | Some d =>
               read_decimal s' (10 * num + d)
                 (if after_point then 10 * den else den)%positive
                 after_point true
           | None => None
           end
  end.

Definition decimal_literal (s : string) : option Qc :=
  match s with
  | String "-"%char s' => Qcopp <$> read_decimal s' 0 1 false false
  | _ => read_decimal s 0 1 false false
  end.

Definition sample_json (s : string) : option pyval :=
  if bool_decide (s = "[0.97, 0.03]"%string)
  then Some (JList [JNum (Q2Qc (97 # 100)); JNum (Q2Qc (3 # 100))])
  else if bool_decide (s = "[0.95, 0.05]"%string)
  then Some (JList [JNum (Q2Qc (95 # 100)); JNum (Q2Qc (5 # 100))])
  else if bool_decide (s = "[]"%string) then Some (JList [])
  else None.

Definition sample_clock (s : string) : option Qc :=
  if bool_decide (s = "2026-01-01T02:00:00Z"%string) then Some (Q2Qc 2)
  else if bool_decide (s = "2025-12-31T23:00:00Z"%string)
  then Some (- Q2Qc 1)
  else None.

Definition sample_builtins : Builtins :=
  {| str_to_float := decimal_literal;
     json_loads := sample_json;
     hours_from_now := sample_clock |}.

(** A market quoted at [yes]/[no], two hours from its end. *)
Definition quoted (name : string) (yes no : Qc) : Market :=
  {| id := name;
     question := "Will it happen?";
     end_date := "2026-01-01T02:00:00Z";
     outcome_prices := JList [JNum yes; JNum no];
     volume := Q2Qc 5000;
     liquidity := Q2Qc 100;
     fee := JStr "0";
     clob_token_ids := JList [];
     closed := false;
     accepting_orders := true;
     start_date := "2025-12-01T00:00:00Z";
     created_at := "2025-11-30T00:00:00Z" |}.

Definition market_95 : Market := quoted "m95" (Q2Qc (95 # 100)) (Q2Qc (5 # 100)).
Definition market_97 : Market := quoted "m97" (Q2Qc (97 # 100)) (Q2Qc (3 # 100)).
Definition market_975 : Market :=
  quoted "m975" (Q2Qc (975 # 1000)) (Q2Qc (25 # 1000)).

(** A market whose prices did not decode: both read as [0.0]. *)
Definition market_unpriced : Market :=
  {| id := "m0";
     question := "Will it happen?";
     end_date := "2026-01-01T02:00:00Z";
     outcome_prices := JList [];
     volume := Q2Qc 5000;
     liquidity := Q2Qc 100;
     fee := JStr "0";
     clob_token_ids := JList [];
     closed := false;
     accepting_orders := true;
     start_date := EmptyString;
     created_at := EmptyString |}.

(** A market at 0.95 whose fee does not read as a number. *)
Definition market_bad_fee : Market :=
  {| id := "m95f";
     question := "Will it happen?";
     end_date := "2026-01-01T02:00:00Z";
     outcome_prices := JList [JNum (Q2Qc (95 # 100)); JNum (Q2Qc (5 # 100))];
     volume := Q2Qc 5000;
     liquidity := Q2Qc 100;
     fee := JStr "n/a";
     clob_token_ids := JList [];
     closed := false;
     accepting_orders := true;
     start_date := EmptyString;
     created_at := EmptyString |}.

(** A raw record with the given [volume] field. *)
Definition raw_with_volume (v : option pyval) : RawMarket :=
  {| r_id := Some "m1"%string;
     r_question := Some "Will it happen?"%string;
     r_endDate := Some "2026-01-01T02:00:00Z"%string;
     r_outcomePrices := Some (JStr "[0.97, 0.03]");
     r_clobTokenIds := Some (JStr "[]");
     r_volume := v;
     r_liquidity := Some (JNum (Q2Qc 100));
     r_fee := None;
     r_closed := Some (JBool false);
     r_acceptingOrders := None;
     r_startDate := None;
     r_createdAt := None |}.

(** ** The claims as stated, where the code departs from them *)

Section Statements.

Context `{Builtins}.

(** The contract of one [execute_trade] call as the specification words
    it: no trade and an unchanged trader exactly when the balance is
    below the cost; otherwise the balance drops by the cost and one
    position and one trade are appended. *)
Definition trade_contract (cfg : Config) (self : VirtualTrader)
    (market : Market) (amt : option Qc) (now : string) : Prop :=
  let c := high_probability_price market * Q2Qc 5 in
  (forall self', execute_trade cfg self market amt now = Ok (None, self') ->
                 self' = self /\ balance self < c) /\
  (balance self < c ->
   execute_trade cfg self market amt now = Ok (None, self)) /\
  (~ balance self < c ->
   exists trade pos,
     execute_trade cfg self market amt now =
       Ok (Some trade,
           {| balance := balance self - c;
              initial_balance := initial_balance self;
              positions := positions self ++ [pos];
              trade_history := trade_history self ++ [trade] |})
     /\ cost trade = c
     /\ pos_cost pos = c
     /\ pos_shares pos = amount trade
     /\ potential_payout pos = pos_shares pos
     /\ profit_if_win pos = pos_shares pos - pos_cost pos).




Definition fresh_loop (t : VirtualTrader) : LoopState :=
  {| loop_trader := t; loop_executed := []; loop_log := [] |}.


(** "A numeric field that is absent or non-numeric defaults to 0": the
    record is kept and the field reads 0. *)
Definition volume_defaults_to_zero (data : RawMarket) : Prop :=
  exists m, parse_market data = Some m /\ volume m = 0.

(** The sum of [cost] over every trade the ledger stores. *)
Definition ledger_cost (data : Ledger) : Qc :=
  py_sum ((fun t => cost (entry_trade t)) <$> ledger_trades data).

(** The six predicates of the Eligibility Filter, in the order and the
    words of the specification. *)
Definition passes_all_six (cfg : Config) (m : Market) : Prop :=
  (closed m = false /\ accepting_orders m = true)
  /\ (exists h, hours_until_end m = Fin h /\ 0 < h
                /\ h <= MAX_HOURS_UNTIL_END cfg)
  /\ (MIN_PROBABILITY cfg <= max_probability m
      /\ max_probability m <= MAX_PROBABILITY cfg)
  /\ (forall f, parsed_fee m = Some f -> f <= MAX_FEE cfg)
  /\ MIN_VOLUME cfg <= volume m.

Definition by_price (a b : Market) : Prop :=
  high_probability_price a <= high_probability_price b.

End Statements.

(** Sample inputs of the ledger and of the loop. *)


(** The record the API serves for a market quoted at 0.95 / 0.05 that
    ends in two hours. *)
Definition raw_95 : RawMarket :=
  {| r_id := Some "m95"%string;
     r_question := Some "Will it happen?"%string;
     r_endDate := Some "2026-01-01T02:00:00Z"%string;
     r_outcomePrices := Some (JStr "[0.95, 0.05]");
     r_clobTokenIds := Some (JStr "[]");
     r_volume := Some (JStr "5000");
     r_liquidity := Some (JNum (Q2Qc 100));
     r_fee := None;
     r_closed := Some (JBool false);
     r_acceptingOrders := Some (JBool true);
     r_startDate := None;
     r_createdAt := None |}.

(** A bot started with no ledger file. *)
Definition fresh_bot : ArbitrageBot :=
  {| trader := new_trader (VIRTUAL_BALANCE config);
     recorder := _load None;
     trades_file := None |}.

(** The API while the market is open, and once it is closed with a null
    resolution. *)
Definition api_open (mid : string) : option pyval :=
  Some (JDict (<["closed" := JBool false]> (∅ : gmap string pyval))).

Definition api_closed_null (mid : string) : option pyval :=
  Some (JDict (<["closed" := JBool true]>
                 (<["resolution" := JNull]> (∅ : gmap string pyval)))).

(** The bot after one cycle in which it bought market [m95]. *)
Definition bot_after_buy : ArbitrageBot :=
  (@run_once sample_builtins config fresh_bot api_open [raw_95]
             "2026-01-01T00:00:00Z" "0a1b2c3d").2.

(** ** The rest of the sources *)

(** *** scanner.py: fetch_markets *)

(** [s.startswith(kw)] *)
Fixpoint starts_with (kw s : string) : bool :=
  match kw, s with
  | EmptyString, _ => true
  | String a kw', String b s' => bool_decide (a = b) && starts_with kw' s'
  | String _ _, EmptyString => false
  end.

(** [kw in s] on strings *)
Fixpoint contains (kw s : string) : bool :=
  starts_with kw s
  || match s with
     | EmptyString => false
     | String _ s' => contains kw s'
     end.

Definition crypto_keywords : list string :=
  ["bitcoin"; "btc"; "ethereum"; "eth"; "solana"; "xrp"; "up or down"]%string.

(** [any(kw in question for kw in crypto_keywords)] with
    [question = m.get('question', '').lower()] *)
Definition is_crypto (m : RawMarket) : bool :=
  existsb (fun kw => contains kw (lower (default EmptyString (r_question m))))
          crypto_keywords.

(** [fetch_markets], given the decoded response of [GET /markets]; [None]
    is the RequestException path. *)
Definition fetch_markets (response : option (list RawMarket))
  : list RawMarket :=
  match response with
  | Some markets => filter (fun m => is_crypto m = false) markets
  | None => []
  end.

(** *** trader.py: calculate_payout and get_stats *)




(** *** main.py: run_loop *)

(** What the outside world supplies to one cycle: the response of
    [GET /markets] ([None] when the request fails), the answers of
    [GET /markets/{id}], the clock reading and the generated run id. *)
Record CycleInput : Type := {
  served : option (list RawMarket);
  answers : string -> option pyval;
  clock : string;
  fresh_uuid : string
}.

Section Loop.

Context `{Builtins}.

(** [run_loop] for as many cycles as there are inputs before the stop
    signal.  An exception of [run_once] is caught and logged; the bot
    goes on from the state it had when the exception was raised. *)
Fixpoint run_loop (cfg : Config) (bot : ArbitrageBot)
    (inputs : list CycleInput) : list Cycle * ArbitrageBot :=
  match inputs with
  | [] => ([], bot)
  | i :: rest =>
      let '(c, bot') :=
        run_once cfg bot (answers i) (fetch_markets (served i))
                 (clock i) (fresh_uuid i) in
      let '(cs, bot'') := run_loop cfg bot' rest in
      (c :: cs, bot'')
  end.

End Loop.

(** *** cron_report.py: check_settlements *)

(** [{**trade, 'resolution': res}]: the report does not set [settled]. *)
Definition cron_mark (trade : TradeEntry) (res : pyval) : TradeEntry :=
  {| entry_trade := entry_trade trade;
     settled := settled trade;
     resolution := Some res |}.

Definition cron_classify (response : option pyval) (trade : TradeEntry)
    (acc : Settlement) : Settlement :=
  match response with
  | Some (JDict m) =>
      if truthy (default JNull (m !! "closed")) then
        let res := default JNull (m !! "resolution") in
        if truthy res && negb (str_is_null res) then
          {| resolved := resolved acc ++ [cron_mark trade res];
             unresolved := unresolved acc;
             newly_resolved :=
               if is_settled trade then newly_resolved acc
               else newly_resolved acc ++ [cron_mark trade res] |}
        else
          {| resolved :=
               resolved acc ++ [cron_mark trade (JStr "CANCELLED")];
             unresolved := unresolved acc;
             newly_resolved :=
               if is_settled trade then newly_resolved acc
               else newly_resolved acc
                    ++ [cron_mark trade (JStr "CANCELLED")] |}
      else
        {| resolved := resolved acc;
           unresolved := unresolved acc ++ [trade];
           newly_resolved := newly_resolved acc |}
  | _ =>
      {| resolved := resolved acc;
         unresolved := unresolved acc ++ [trade];
         newly_resolved := newly_resolved acc |}
  end.

Fixpoint cron_query_loop (api : string -> option pyval)
    (unique : list (string * TradeEntry)) (acc : Settlement)
    (calls : list string) : Settlement * list string :=
  match unique with
  | [] => (acc, calls)
  | (mid, trade) :: rest =>
      cron_query_loop api rest (cron_classify (api mid) trade acc)
                      (calls ++ [mid])
  end.

Definition cron_check_settlements (trades_file : option Ledger)
    (api : string -> option pyval) : Settlement * list string :=
  match trades_file with
  | None => (no_settlement, [])
  | Some data =>
      let all_trades := collect_unsettled data in
      if bool_decide (all_trades = []) then (no_settlement, [])
      else cron_query_loop api (dedupe all_trades []) no_settlement []
  end.

(** *** dashboard.py: calculate_stats *)

Record DashboardStats : Type := {
  dash_balance : Qc;
  dash_total_invested : Qc;
  dash_pending_cost : Qc;
  dash_cancelled_cost : Qc;
  dash_potential_payout : Qc;
  dash_potential_profit : Qc;
  dash_actual_profit : Qc;
  dash_total_runs : nat;
  dash_total_trades : nat;
  dash_settled : nat;
  dash_cancelled : nat;
  dash_pending : nat;
  dash_roi : Qc
}.

(** [t.get('resolution') == 'CANCELLED'] *)
Definition is_cancelled (t : TradeEntry) : bool :=
  match resolution t with
  | Some (JStr s) => bool_decide (s = "CANCELLED"%string)
  | _ => false
  end.

(** [t.get('profit', 0)]: no trade of the ledger carries that key. *)
Definition entry_profit (t : TradeEntry) : Qc := 0.

(** [calculate_stats(data)]; the result type keeps the division of [roi]
    as Python has it. *)
Definition calculate_stats (cfg : Config) (data : Ledger)
  : result DashboardStats :=
  let all_trades := ledger_trades data in
  let pending_trades := filter (fun t => is_settled t = false) all_trades in
  let cancelled_trades := filter (fun t => is_cancelled t = true) all_trades in
  let settled_trades :=
    filter (fun t => is_settled t = true /\ is_cancelled t = false)
           all_trades in
  let pending_cost := py_sum ((cost ∘ entry_trade) <$> pending_trades) in
  let pending_payout := py_sum ((amount ∘ entry_trade) <$> pending_trades) in
  let cancelled_cost := py_sum ((cost ∘ entry_trade) <$> cancelled_trades) in
  let actual_balance := VIRTUAL_BALANCE cfg - pending_cost in
  let potential_profit := pending_payout - pending_cost in
  let actual_profit :=
    py_sum (entry_profit <$>
              filter (fun t => 0 < entry_profit t) settled_trades) in
  roi ← (if bool_decide (0 < pending_cost)
         then q ← py_div potential_profit pending_cost;
              Ok (q * Q2Qc 100)
         else Ok 0);
  Ok {| dash_balance := actual_balance;
        dash_total_invested := py_sum ((cost ∘ entry_trade) <$> all_trades);
        dash_pending_cost := pending_cost;
        dash_cancelled_cost := cancelled_cost;
        dash_potential_payout := pending_payout;
        dash_potential_profit := potential_profit;
        dash_actual_profit := actual_profit;
        dash_total_runs := length (runs data);
        dash_total_trades := length all_trades;
        dash_settled := length settled_trades;
        dash_cancelled := length cancelled_trades;
        dash_pending := length pending_trades;
        dash_roi := roi |}.

(** Sample inputs for the loop. *)

Definition input_buy_95 : CycleInput :=
  {| served := Some [raw_95];
     answers := api_open;
     clock := "2026-01-01T00:00:00Z";
     fresh_uuid := "0a1b2c3d" |}.

Definition input_outage : CycleInput :=
  {| served := None;
     answers := fun _ => None;
     clock := "2026-01-01T01:00:00Z";
     fresh_uuid := "4e5f6a7b" |}.

(** A record served without [outcomePrices]. *)
Definition raw_no_prices : RawMarket :=
  {| r_id := Some "mnp"%string;
     r_question := Some "Will it happen?"%string;
     r_endDate := Some "2026-01-01T02:00:00Z"%string;
     r_outcomePrices := None;
     r_clobTokenIds := None;
     r_volume := Some (JStr "5000");
     r_liquidity := Some (JNum (Q2Qc 100));
     r_fee := None;
     r_closed := None;
     r_acceptingOrders := None;
     r_startDate := None;
     r_createdAt := None |}.

(** A record whose question names a crypto asset. *)
Definition raw_bitcoin : RawMarket :=
  {| r_id := Some "mbtc"%string;
     r_question := Some "Will Bitcoin close above 100k?"%string;
     r_endDate := Some "2026-01-01T02:00:00Z"%string;
     r_outcomePrices := Some (JStr "[0.95, 0.05]");
     r_clobTokenIds := Some (JStr "[]");
     r_volume := Some (JStr "5000");
     r_liquidity := Some (JNum (Q2Qc 100));
     r_fee := None;
     r_closed := Some (JBool false);
     r_acceptingOrders := Some (JBool true);
     r_startDate := None;
     r_createdAt := None |}.

(** * Properties *)

(** ** Arithmetic on canonical rationals *)

Lemma Qc_eq_Qeq (x y : Qc) : x = y <-> (this x == this y)%Q.
Proof. split; [intros ->; reflexivity | apply Qc_is_canon]. Qed.

(** Linear goals over [Qc] are sent to [lra] over [Q]. *)
Ltac qc_lra :=
  repeat match goal with
         | H : @eq Qc _ _ |- _ => apply Qc_eq_Qeq in H
         | H : not (@eq Qc _ _) |- _ => rewrite Qc_eq_Qeq in H
         | H : not (Qclt _ _) |- _ => apply Qcnot_lt_le in H
         | H : not (Qcle _ _) |- _ => apply Qcnot_le_lt in H
         end;
  try apply Qc_is_canon;
  unfold Qcle, Qclt, Qcminus, Qcopp, Qcplus, Qcmult, Q2Qc in *;
  cbn [this] in *;
  rewrite ?Qred_correct in *;
  lra.

Lemma shares_are_five (p : Qc) : p <> 0 -> p * Q2Qc 5 / p = Q2Qc 5.
Proof. intros Hp. rewrite (Qcmult_comm p). by apply Qcdiv_mult_l. Qed.





Section TraderProperties.

Context `{Builtins}.

(** ** One call of [execute_trade] *)

Lemma execute_trade_raises cfg self market amt now :
  high_probability_price market = 0 ->
  execute_trade cfg self market amt now = Raise ZeroDivisionError.
Proof.
  intros Hp. unfold execute_trade, py_div.
  by rewrite (bool_decide_eq_true_2 _ Hp).
Qed.

Lemma execute_trade_refuses cfg self market amt now :
  high_probability_price market <> 0 ->
  balance self < high_probability_price market * Q2Qc 5 ->
  execute_trade cfg self market amt now = Ok (None, self).
Proof.
  intros Hp Hlt. unfold execute_trade, py_div.
  rewrite (bool_decide_eq_false_2 _ Hp). simpl.
  by rewrite (bool_decide_eq_true_2 _ Hlt).
Qed.

Lemma execute_trade_accepts cfg self market amt now :
  high_probability_price market <> 0 ->
  ~ balance self < high_probability_price market * Q2Qc 5 ->
  execute_trade cfg self market amt now =
    Ok (Some {| market_id := id market;
                trade_question := question market;
                outcome := high_probability_outcome market;
                price := high_probability_price market;
                amount := Q2Qc 5;
                cost := high_probability_price market * Q2Qc 5;
                timestamp := now;
                status := "simulated";
                trade_start_date := start_date market;
                trade_end_date := end_date market;
                trade_created_at := created_at market |},
        {| balance := balance self - high_probability_price market * Q2Qc 5;
           initial_balance := initial_balance self;
           positions := positions self ++
             [{| pos_market_id := id market;
                 pos_question := question market;
                 pos_outcome := high_probability_outcome market;
                 pos_price := high_probability_price market;
                 pos_shares := Q2Qc 5;
                 pos_cost := high_probability_price market * Q2Qc 5;
                 potential_payout := Q2Qc 5;
                 profit_if_win :=
                   Q2Qc 5 - high_probability_price market * Q2Qc 5;
                 pos_timestamp := now |}];
           trade_history := trade_history self ++
             [{| market_id := id market;
                 trade_question := question market;
                 outcome := high_probability_outcome market;
                 price := high_probability_price market;
                 amount := Q2Qc 5;
                 cost := high_probability_price market * Q2Qc 5;
                 timestamp := now;
                 status := "simulated";
                 trade_start_date := start_date market;
                 trade_end_date := end_date market;
                 trade_created_at := created_at market |}] |}).
Proof.
  intros Hp Hge. unfold execute_trade, py_div.
  rewrite (bool_decide_eq_false_2 _ Hp). simpl.
  rewrite (bool_decide_eq_false_2 _ Hge).
  by rewrite (shares_are_five _ Hp).
Qed.

(** The three outcomes of a call, by cases on the price and the balance. *)
Lemma execute_trade_cases cfg self market amt now :
  (high_probability_price market = 0
   /\ execute_trade cfg self market amt now = Raise ZeroDivisionError)
  \/ (high_probability_price market <> 0
      /\ balance self < high_probability_price market * Q2Qc 5
      /\ execute_trade cfg self market amt now = Ok (None, self))
  \/ (high_probability_price market <> 0
      /\ ~ balance self < high_probability_price market * Q2Qc 5
      /\ exists trade self',
           execute_trade cfg self market amt now = Ok (Some trade, self')
           /\ price trade = high_probability_price market
           /\ amount trade = Q2Qc 5
           /\ cost trade = high_probability_price market * Q2Qc 5
           /\ balance self' = balance self - cost trade
           /\ initial_balance self' = initial_balance self
           /\ pos_cost <$> positions self'
              = (pos_cost <$> positions self) ++ [cost trade]).
Proof.
  destruct (decide (high_probability_price market = 0)) as [Hp|Hp].
  { left. eauto using execute_trade_raises. }
  right.
  destruct (decide (balance self < high_probability_price market * Q2Qc 5))
    as [Hlt|Hge].
  { left. eauto using execute_trade_refuses. }
  right. repeat split; [done..|].
  eexists _, _. split; [by apply execute_trade_accepts|].
  simpl. repeat split. by rewrite fmap_app.
Qed.



(** ** Sequences of calls *)

Lemma states_along_invariant (P : VirtualTrader -> Prop) cfg calls :
  (forall self call, P self -> P (after_call cfg self call)) ->
  forall self, P self -> Forall P (states_along cfg self calls).
Proof.
  intros Hstep. induction calls as [|call calls IH]; intros self HP; simpl.
  - by constructor.
  - constructor; [done|]. by apply IH, Hstep.
Qed.

Lemma after_call_balance_nonneg cfg self call :
  0 <= balance self -> 0 <= balance (after_call cfg self call).
Proof.
  intros Hb. destruct call as [[market amt] now]. unfold after_call.
  destruct (execute_trade_cases cfg self market amt now)
    as [[_ Hr]|[(_ & _ & Hr)|(_ & Hge & t & s & Hr & _ & _ & Hc & Hs & _)]];
    rewrite Hr; [done..|].
  rewrite Hs, Hc. qc_lra.
Qed.



(** C1, as the code has it: for a market whose dominant price is not 0,
    [execute_trade] returns no trade and leaves the trader unchanged
    exactly when the balance is below [price * 5]; otherwise it lowers
    the balance by that cost, appends one position (payout = shares,
    profit = shares - cost) and one trade, and returns the trade.  Over
    every sequence of calls, on any markets, a balance that starts
    non-negative stays non-negative. *)
Theorem execute_trade_contract :
  (forall cfg self market amt now,
     high_probability_price market <> 0 ->
     trade_contract cfg self market amt now)
  /\ (forall cfg self calls,
        0 <= balance self ->
        Forall (fun st => 0 <= balance st) (states_along cfg self calls)).
Proof.
  split.
  - intros cfg self market amt now Hp. unfold trade_contract.
    split; [|split].
    + intros self' Hex.
      destruct (decide (balance self
                        < high_probability_price market * Q2Qc 5))
        as [Hlt|Hge].
      * rewrite (execute_trade_refuses _ _ _ _ _ Hp Hlt) in Hex.
        by injection Hex as <-.
      * by rewrite (execute_trade_accepts _ _ _ _ _ Hp Hge) in Hex.
    + by apply execute_trade_refuses.
    + intros Hge. eexists _, _.
      split; [by apply execute_trade_accepts|]. done.
  - intros cfg self calls Hb.
    apply (states_along_invariant (fun st => 0 <= balance st)); [|done].
    intros. by apply after_call_balance_nonneg.
Qed.


End TraderProperties.

(** ** The trader on the sample markets *)



(** Scenario D: with balance 10 a first and a second trade at 0.97 are
    accepted (cost 4.85 each), and the third is refused. *)
Example scenario_D :
  let now := "2026-01-01T00:00:00Z"%string in
  let call := (market_97, None, now) in
  let s1 := @after_call sample_builtins config (new_trader (Q2Qc 10)) call in
  let s2 := @after_call sample_builtins config s1 call in
  balance s1 = Q2Qc (515 # 100)
  /\ balance s2 = Q2Qc (30 # 100)
  /\ @execute_trade sample_builtins config s2 market_97 None now
     = Ok (None, s2).
Proof.
  intros now call s1 s2. split; [|split].
  - by apply Qc_is_canon.
  - by apply Qc_is_canon.
  - by apply execute_trade_refuses.
Qed.

(** C1 fails as stated: on a market whose prices read 0 the call raises,
    although the balance (1000) is not below the cost (0). *)
Lemma trade_contract_fails_at_price_zero :
  ~ @trade_contract sample_builtins config (new_trader (Q2Qc 1000))
      market_unpriced None "2026-01-01T00:00:00Z".
Proof.
  intros (_ & _ & Hok).
  destruct Hok as (trade & pos & Hex & _); [by vm_compute|].
  rewrite execute_trade_raises in Hex; [discriminate|reflexivity].
Qed.

Lemma execute_trade_contract_witness :
  @trade_contract sample_builtins config (new_trader (Q2Qc 1000))
     market_95 None "2026-01-01T00:00:00Z"
  /\ Forall (fun st => 0 <= balance st)
       (@states_along sample_builtins config (new_trader (Q2Qc 10))
          [(market_97, None, "2026-01-01T00:00:00Z"%string);
           (market_unpriced, None, "2026-01-01T00:00:01Z"%string);
           (market_97, None, "2026-01-01T00:00:02Z"%string);
           (market_97, None, "2026-01-01T00:00:03Z"%string)]).
Proof.
  split.
  - apply (proj1 (@execute_trade_contract sample_builtins)). by vm_compute.
  - apply (proj2 (@execute_trade_contract sample_builtins)). by vm_compute.
Defined.



(** ** The Eligibility Filter *)

Section ScannerProperties.

Context `{Builtins}.

Lemma filter_loop_spec cfg markets acc :
  filter_loop cfg markets acc
  = acc ++ filter (fun m => keeps cfg m = true) markets.
Proof.
  revert acc. induction markets as [|m markets IH]; intros acc; simpl.
  - by rewrite app_nil_r.
  - rewrite IH, filter_cons. destruct (keeps cfg m) eqn:Hk.
    + rewrite decide_True by done. by rewrite <- app_assoc.
    + by rewrite decide_False by done.
Qed.

Lemma filter_loop_sublist cfg markets :
  filter_loop cfg markets [] `sublist_of` markets.
Proof. rewrite filter_loop_spec. apply sublist_filter. Qed.

(** The loop body keeps a market exactly when the six predicates hold. *)
Lemma keeps_iff_passes cfg m : keeps cfg m = true <-> passes_all_six cfg m.
Proof.
  unfold keeps, passes_all_six, fee_rejects, hours_le, hours_gt.
  destruct (closed m), (accepting_orders m); simpl;
    try (split; [done|by intros [[??] _]]).
  destruct (hours_until_end m) as [h|]; simpl;
    [|split; [done|by intros (_ & (? & ? & _) & _)]].
  destruct (parsed_fee m) as [f|] eqn:Hf; repeat case_bool_decide;
    (split;
     [ first
         [ done
         | intros _; repeat split; try qc_lra;
           [ eexists; repeat split; qc_lra
           | intros f' Hf'; simplify_eq; try qc_lra ] ]
     | first
         [ done
         | intros (_ & (h' & [= <-] & ? & ?) & (? & ?) & Hfee & ?);
           try specialize (Hfee _ eq_refl); exfalso; qc_lra ] ]).
Qed.

(** *** The sort *)

Lemma insert_by_price_perm m l : insert_by_price m l ≡ₚ m :: l.
Proof.
  induction l as [|x l IH]; simpl; [done|].
  case_bool_decide; [|done]. rewrite IH. apply Permutation_swap.
Qed.

Lemma sort_by_price_perm l : sort_by_price l ≡ₚ l.
Proof.
  induction l as [|x l IH]; simpl; [done|].
  by rewrite insert_by_price_perm, IH.
Qed.

Lemma insert_by_price_sorted m l :
  StronglySorted by_price l -> StronglySorted by_price (insert_by_price m l).
Proof.
  induction 1 as [|x l Hs IH Hall]; simpl.
  - repeat constructor.
  - case_bool_decide as Hlt.
    + constructor; [done|].
      rewrite insert_by_price_perm. constructor; [|done].
      unfold by_price. qc_lra.
    + constructor; [by constructor|].
      constructor; [unfold by_price; qc_lra|].
      eapply Forall_impl; [exact Hall|].
      unfold by_price. intros y Hy. qc_lra.
Qed.

Lemma sort_by_price_sorted l : StronglySorted by_price (sort_by_price l).
Proof.
  induction l as [|x l IH]; simpl; [constructor|].
  by apply insert_by_price_sorted.
Qed.

(** Stability: the markets of one price keep their order. *)
Lemma insert_by_price_stable p m l :
  filter (fun x => high_probability_price x = p) (insert_by_price m l)
  = filter (fun x => high_probability_price x = p) (m :: l).
Proof.
  induction l as [|x l IH]; simpl; [done|].
  case_bool_decide as Hlt; [|done].
  rewrite filter_cons, IH, !filter_cons.
  destruct (decide (high_probability_price x = p)) as [Hx|Hx]; [|done].
  destruct (decide (high_probability_price m = p)) as [Hm|Hm]; [|done].
  exfalso. rewrite Hx, Hm in Hlt. by apply Qclt_not_eq in Hlt.
Qed.

Lemma sort_by_price_stable p l :
  filter (fun x => high_probability_price x = p) (sort_by_price l)
  = filter (fun x => high_probability_price x = p) l.
Proof.
  induction l as [|x l IH]; simpl; [done|].
  by rewrite insert_by_price_stable, !filter_cons, IH.
Qed.

Lemma sort_by_price_sorted_id l :
  StronglySorted by_price l -> sort_by_price l = l.
Proof.
  induction 1 as [|x l Hs IH Hall]; simpl; [done|].
  rewrite IH. destruct Hall as [|y l Hxy _]; simpl; [done|].
  rewrite bool_decide_eq_false_2; [done|].
  unfold by_price in Hxy. intros Hlt. qc_lra.
Qed.

Lemma StronglySorted_sublist {A} (R : relation A) (l k : list A) :
  k `sublist_of` l -> StronglySorted R l -> StronglySorted R k.
Proof.
  induction 1 as [|x k l Hsub IH|x k l Hsub IH]; intros Hs.
  - constructor.
  - apply StronglySorted_inv in Hs as [Hs Hall].
    constructor; [by apply IH|].
    apply Forall_forall. intros y Hy.
    rewrite Forall_forall in Hall. apply Hall.
    by eapply elem_of_sublist.
  - apply StronglySorted_inv in Hs as [Hs _]. by apply IH.
Qed.

Lemma filter_all {A} (P : A -> Prop) `{!forall x, Decision (P x)} (l : list A) :
  Forall P l -> filter P l = l.
Proof.
  induction 1 as [|x l Hx Hl IH]; [done|].
  by rewrite filter_cons_True, IH.
Qed.

Lemma filter_prefix {A} (P : A -> Prop) `{!forall x, Decision (P x)}
    (k l : list A) :
  k `prefix_of` l -> filter P k `prefix_of` filter P l.
Proof. intros [r ->]. rewrite filter_app. by eexists. Qed.

Lemma prefix_is_sublist {A} (k l : list A) :
  k `prefix_of` l -> k `sublist_of` l.
Proof. intros [r ->]. by apply sublist_inserts_r. Qed.

Lemma filter_markets_unfold cfg markets :
  filter_markets cfg markets
  = take (MAX_TRADES_PER_RUN cfg)
      (sort_by_price (filter (fun m => keeps cfg m = true) markets)).
Proof. unfold filter_markets. by rewrite filter_loop_spec. Qed.

Lemma filter_markets_keeps cfg markets m :
  m ∈ filter_markets cfg markets -> m ∈ markets /\ keeps cfg m = true.
Proof.
  rewrite filter_markets_unfold. intros Hm.
  eapply elem_of_sublist in Hm; [|apply sublist_take].
  rewrite sort_by_price_perm in Hm.
  by apply list_elem_of_filter in Hm as [? ?].
Qed.

(** C2: the markets that survive the loop of [filter_markets] are
    exactly the input markets that pass the six predicates; the output is
    those survivors, sorted, cut at the cap.  So every market of the
    output passes the six predicates, and when the survivors fit under
    the cap a market is in the output exactly when it passes them. *)
Theorem filter_markets_iff_six_predicates cfg markets m :
  (m ∈ filter_loop cfg markets [] <-> m ∈ markets /\ passes_all_six cfg m)
  /\ filter_markets cfg markets
     = take (MAX_TRADES_PER_RUN cfg)
         (sort_by_price (filter_loop cfg markets []))
  /\ sort_by_price (filter_loop cfg markets []) ≡ₚ filter_loop cfg markets []
  /\ (m ∈ filter_markets cfg markets ->
      m ∈ markets /\ passes_all_six cfg m)
  /\ ((length (filter_loop cfg markets []) <= MAX_TRADES_PER_RUN cfg)%nat ->
      (m ∈ filter_markets cfg markets
       <-> m ∈ markets /\ passes_all_six cfg m)).
Proof.
  assert (Hsurv : m ∈ filter_loop cfg markets []
                  <-> m ∈ markets /\ passes_all_six cfg m).
  { rewrite filter_loop_spec. simpl.
    rewrite list_elem_of_filter, keeps_iff_passes. tauto. }
  split; [done|]. split; [done|].
  split; [apply sort_by_price_perm|].
  split.
  - intros Hm. apply filter_markets_keeps in Hm as [? Hk].
    by rewrite <- keeps_iff_passes.
  - intros Hlen. rewrite <- Hsurv. unfold filter_markets.
    rewrite take_ge.
    + by rewrite sort_by_price_perm.
    + by rewrite sort_by_price_perm.
Qed.

(** C5: the output of [filter_markets] is the survivors, a subsequence
    of the input, sorted ascending by dominant price and cut at the cap:
    it is sorted, no longer than the cap, a prefix of the sorted
    survivors; markets of equal price keep the order they had in the
    input; and filtering the output again gives the output back. *)
Theorem filter_markets_sorted_subsequence cfg markets :
  exists survivors,
    survivors `sublist_of` markets
    /\ sort_by_price survivors ≡ₚ survivors
    /\ StronglySorted by_price (sort_by_price survivors)
    /\ (forall p,
          filter (fun x => high_probability_price x = p)
                 (sort_by_price survivors)
          = filter (fun x => high_probability_price x = p) survivors)
    /\ filter_markets cfg markets
       = take (MAX_TRADES_PER_RUN cfg) (sort_by_price survivors)
    /\ StronglySorted by_price (filter_markets cfg markets)
    /\ (length (filter_markets cfg markets) <= MAX_TRADES_PER_RUN cfg)%nat
    /\ (forall p,
          filter (fun x => high_probability_price x = p)
                 (filter_markets cfg markets)
          `prefix_of`
          filter (fun x => high_probability_price x = p) survivors)
    /\ (forall p,
          filter (fun x => high_probability_price x = p)
                 (filter_markets cfg markets)
          `sublist_of` markets)
    /\ filter_markets cfg (filter_markets cfg markets)
       = filter_markets cfg markets.
Proof.
  exists (filter_loop cfg markets []).
  assert (Hsorted : StronglySorted by_price (filter_markets cfg markets)).
  { eapply StronglySorted_sublist; [apply sublist_take|].
    apply sort_by_price_sorted. }
  assert (Hlen : (length (filter_markets cfg markets)
                  <= MAX_TRADES_PER_RUN cfg)%nat).
  { unfold filter_markets. rewrite length_take. lia. }
  assert (Hpre : forall p,
             filter (fun x => high_probability_price x = p)
                    (filter_markets cfg markets)
             `prefix_of`
             filter (fun x => high_probability_price x = p)
                    (filter_loop cfg markets [])).
  { intros p. rewrite <- (sort_by_price_stable p (filter_loop cfg markets [])).
    apply filter_prefix, prefix_take. }
  split; [apply filter_loop_sublist|].
  split; [apply sort_by_price_perm|].
  split; [apply sort_by_price_sorted|].
  split; [intros p; apply sort_by_price_stable|].
  split; [done|]. split; [done|]. split; [done|]. split; [done|].
  split.
  - intros p. etrans; [apply prefix_is_sublist, Hpre|].
    etrans; [apply sublist_filter|]. apply filter_loop_sublist.
  - rewrite (filter_markets_unfold cfg (filter_markets cfg markets)).
    rewrite filter_all.
    + rewrite sort_by_price_sorted_id by done. by apply take_ge.
    + apply Forall_forall. intros m Hm.
      by apply filter_markets_keeps in Hm as [_ ?].
Qed.

End ScannerProperties.

(** ** The filter on the sample markets *)

(** Scenario A: probability 0.95, two hours to go, fee 0, volume 5000,
    open and accepting orders: kept under the default configuration. *)
Example scenario_A :
  @keeps sample_builtins config market_95 = true
  /\ @filter_markets sample_builtins config [market_95] = [market_95].
Proof. by vm_compute. Qed.

(** Scenario B: the same market, closed, is dropped. *)
Example scenario_B :
  @filter_markets sample_builtins config
    [{| id := id market_95; question := question market_95;
        end_date := end_date market_95;
        outcome_prices := outcome_prices market_95;
        volume := volume market_95; liquidity := liquidity market_95;
        fee := fee market_95; clob_token_ids := clob_token_ids market_95;
        closed := true; accepting_orders := true;
        start_date := start_date market_95;
        created_at := created_at market_95 |}] = [].
Proof. by vm_compute. Qed.

(** The probability band is closed: 0.90 and 0.98 pass, 0.99 does not. *)
Example probability_band_is_closed :
  @keeps sample_builtins config
    (quoted "lo" (Q2Qc (90 # 100)) (Q2Qc (10 # 100))) = true
  /\ @keeps sample_builtins config
       (quoted "hi" (Q2Qc (98 # 100)) (Q2Qc (2 # 100))) = true
  /\ @keeps sample_builtins config
       (quoted "over" (Q2Qc (99 # 100)) (Q2Qc (1 # 100))) = false.
Proof. by vm_compute. Qed.

(** A fee that does not convert passes the fee check. *)
Example unreadable_fee_passes :
  @parsed_fee sample_builtins market_bad_fee = None
  /\ @keeps sample_builtins config market_bad_fee = true.
Proof. by vm_compute. Qed.

(** Ascending by price, ties in input order, cut at five. *)
Example filter_markets_ranks :
  let m97' := quoted "m97b" (Q2Qc (97 # 100)) (Q2Qc (3 # 100)) in
  @filter_markets sample_builtins config
    [market_975; market_97; market_unpriced; m97'; market_95;
     market_975; market_975]
  = [market_95; market_97; m97'; market_975; market_975].
Proof. by vm_compute. Qed.

Lemma filter_markets_iff_six_predicates_witness :
  market_95 ∈ @filter_markets sample_builtins config
                [market_unpriced; market_95]
  <-> market_95 ∈ [market_unpriced; market_95]
      /\ @passes_all_six sample_builtins config market_95.
Proof.
  apply (@filter_markets_iff_six_predicates sample_builtins config
           [market_unpriced; market_95] market_95).
  vm_compute. lia.
Defined.

(** ** The Market Normalizer *)

Section NormalizerProperties.

Context `{Builtins}.

Lemma numeric_field_falsy (field : option pyval) :
  (field = None \/ exists v, field = Some v /\ truthy v = false) ->
  numeric_field field = Some 0.
Proof.
  unfold numeric_field, py_or.
  intros [->|(v & -> & Hv)]; simpl.
  - done.
  - by rewrite Hv.
Qed.

Lemma numeric_field_truthy (v : pyval) :
  truthy v = true -> numeric_field (Some v) = py_float v.
Proof. unfold numeric_field, py_or. simpl. by intros ->. Qed.

(** C8, as the code has it: [parse_market] keeps the record exactly when
    [float(... or 0)] succeeds on both [volume] and [liquidity], and then
    the Market holds those two values; a field that is absent, null or
    otherwise falsy reads 0; a truthy field reads [float] of it, so a
    truthy value that [float] refuses makes [parse_market] return no
    Market. *)
Theorem parse_market_numeric_fields (data : RawMarket) :
  (forall m, parse_market data = Some m ->
             numeric_field (r_volume data) = Some (volume m)
             /\ numeric_field (r_liquidity data) = Some (liquidity m))
  /\ (parse_market data = None
      <-> numeric_field (r_volume data) = None
          \/ numeric_field (r_liquidity data) = None)
  /\ (forall field,
        (field = None \/ exists v, field = Some v /\ truthy v = false) ->
        numeric_field field = Some 0)
  /\ (forall v, truthy v = true ->
                numeric_field (Some v) = py_float v).
Proof.
  split; [|split; [|split]].
  - intros m. unfold parse_market.
    destruct (numeric_field (r_volume data)) as [v|]; [|done].
    destruct (numeric_field (r_liquidity data)) as [l|]; [|done].
    by intros [= <-].
  - unfold parse_market.
    destruct (numeric_field (r_volume data)) as [v|];
      [|split; [by left|done]].
    destruct (numeric_field (r_liquidity data)) as [l|];
      [|split; [by right|done]].
    split; [done|by intros [?|?]].
  - apply numeric_field_falsy.
  - apply numeric_field_truthy.
Qed.

End NormalizerProperties.

(** C8 fails as stated: a record whose [volume] is the text [abc] is
    dropped, not kept with volume 0. *)
Lemma volume_text_drops_record :
  @parse_market sample_builtins (raw_with_volume (Some (JStr "abc"))) = None
  /\ ~ @volume_defaults_to_zero sample_builtins
         (raw_with_volume (Some (JStr "abc"))).
Proof.
  assert (Hnone : @parse_market sample_builtins
                    (raw_with_volume (Some (JStr "abc"))) = None)
    by reflexivity.
  split; [done|]. intros (m & Hm & _). by rewrite Hnone in Hm.
Qed.

Lemma parse_market_numeric_fields_witness :
  @numeric_field sample_builtins (r_volume (raw_with_volume None)) = Some 0
  /\ @numeric_field sample_builtins
       (r_volume (raw_with_volume (Some (JStr "")))) = Some 0
  /\ @parse_market sample_builtins
       (raw_with_volume (Some (JList [JNum 1]))) = None.
Proof.
  destruct (@parse_market_numeric_fields sample_builtins
              (raw_with_volume (Some (JList [JNum 1]))))
    as (_ & Hdrop & Hfalsy & _).
  split; [|split].
  - apply Hfalsy. by left.
  - apply Hfalsy. right. by eexists.
  - apply Hdrop. by left.
Defined.

(** Absent, null and empty [volume] fields read 0 and keep the record. *)
Example volume_absent_reads_zero :
  Forall (fun field =>
            exists m, @parse_market sample_builtins (raw_with_volume field)
                      = Some m /\ volume m = 0)
         [None; Some JNull; Some (JStr ""); Some (JNum 0); Some (JList [])].
Proof. repeat constructor; eexists; (split; [reflexivity|done]). Qed.

(** Scenario C: [outcomePrices = "[0.97, 0.03]"] reads as YES at 0.97. *)
Example scenario_C :
  exists m,
    @parse_market sample_builtins (raw_with_volume (Some (JNum (Q2Qc 5000))))
    = Some m
    /\ @yes_price sample_builtins m = Q2Qc (97 # 100)
    /\ @no_price sample_builtins m = Q2Qc (3 # 100)
    /\ @high_probability_outcome sample_builtins m = YES
    /\ @high_probability_price sample_builtins m = Q2Qc (97 # 100).
Proof. eexists. split; [reflexivity|]. by vm_compute. Qed.

(** ** The ledger's counter *)




(** C7 at the failing input: after one cycle that buys one market at
    0.95, the ledger stores one trade of cost 4.75, and [total_invested]
    is 5, the number of shares. *)
Theorem total_invested_counts_shares :
  (cost ∘ entry_trade) <$> ledger_trades (recorder bot_after_buy)
  = [Q2Qc (475 # 100)]
  /\ ledger_cost (recorder bot_after_buy) = Q2Qc (475 # 100)
  /\ total_invested (recorder bot_after_buy) = Q2Qc 5
  /\ total_invested (recorder bot_after_buy)
     <> ledger_cost (recorder bot_after_buy).
Proof.
  assert (Hc : ledger_cost (recorder bot_after_buy) = Q2Qc (475 # 100))
    by (by apply Qc_is_canon).
  assert (Ht : total_invested (recorder bot_after_buy) = Q2Qc 5)
    by (by apply Qc_is_canon).
  split; [|split; [done|split; [done|]]].
  - apply (f_equal (fun q => [q])). by apply Qc_is_canon.
  - rewrite Hc, Ht. by vm_compute.
Qed.

(** ** Settlement reconciliation *)

Lemma collect_unsettled_spec data :
  collect_unsettled data
  = filter (fun t => is_settled t = false) (ledger_trades data).
Proof.
  unfold collect_unsettled, ledger_trades.
  induction (runs data) as [|run rs IH]; [done|].
  rewrite !fmap_cons. simpl. by rewrite filter_app, <- IH.
Qed.

(** Reconciling a ledger in which every trade is settled sends no
    request and returns three empty lists; so does a missing file. *)
Lemma check_settlements_all_settled data api :
  Forall (fun t => is_settled t = true) (ledger_trades data) ->
  check_settlements (Some data) api = (no_settlement, []).
Proof.
  intros Hall. unfold check_settlements.
  rewrite collect_unsettled_spec.
  assert (Hnil : filter (fun t => is_settled t = false) (ledger_trades data)
                 = []).
  { induction Hall as [|t l Ht _ IH]; [done|].
    rewrite filter_cons, decide_False; [done|]. by rewrite Ht. }
  by rewrite Hnil.
Qed.

Lemma check_settlements_no_file api :
  check_settlements None api = (no_settlement, []).
Proof. done. Qed.

(** [run_once] stores what [record_run] returns and nothing else: no
    step of the cycle writes [settled] into a stored trade. *)
Lemma run_once_ledger `{Builtins} cfg bot api markets_data now uuid :
  let bot' := (run_once cfg bot api markets_data now uuid).2 in
  (recorder bot' = recorder bot /\ trades_file bot' = trades_file bot)
  \/ (exists run_data,
        recorder bot' = record_run (recorder bot) run_data uuid now
        /\ trades_file bot' = Some (recorder bot')).
Proof.
  unfold run_once.
  destruct (check_settlements (trades_file bot) api) as [settlement requests].
  destruct (scan cfg markets_data) as [markets stats].
  case_bool_decide; [by left|].
  destruct (trade_loop _ _ _ _) as [st [e|]]; simpl; [by left|].
  right. by eexists.
Qed.

(** C3 at the failing input: the ledger holds one unsettled trade on
    market [m95], and the API reports that market closed with a null
    resolution.  Two cycles in a row each send the request for [m95] and
    each list the trade, resolution CANCELLED, as newly resolved. *)
Theorem newly_resolved_on_every_cycle :
  let r1 := @run_once sample_builtins config bot_after_buy api_closed_null
              [] "2026-01-01T03:00:00Z" "11111111" in
  let r2 := @run_once sample_builtins config r1.2 api_closed_null
              [] "2026-01-01T04:00:00Z" "22222222" in
  cycle_requests r1.1 = ["m95"%string]
  /\ cycle_requests r2.1 = ["m95"%string]
  /\ (fun t => (market_id (entry_trade t), resolution t))
       <$> newly_resolved (cycle_settlement r1.1)
     = [("m95"%string, Some (JStr "CANCELLED"))]
  /\ newly_resolved (cycle_settlement r2.1)
     = newly_resolved (cycle_settlement r1.1).
Proof. by vm_compute. Qed.

(** ** The trading loop of one cycle *)

Section MainProperties.

Context `{Builtins}.





(** The candidates that [run_once] hands to the loop are sorted by
    price. *)
Lemma scan_sorted cfg markets_data :
  StronglySorted by_price (scan cfg markets_data).1.
Proof.
  unfold scan. simpl.
  eapply StronglySorted_sublist; [apply sublist_take|].
  unfold filter_markets.
  eapply StronglySorted_sublist; [apply sublist_take|].
  apply sort_by_price_sorted.
Qed.


End MainProperties.



(** * Further properties of the sources *)

(** ** Market and the normalizer *)

Section MarketProperties.

Context `{Builtins}.

(** The dominant side is YES exactly when the YES price is at least the
    NO price (so ties go to YES); the dominant price is the price of that
    side, it is the larger of the two, and [max_probability] is the same
    number. *)
Theorem dominant_side_and_price (m : Market) :
  (high_probability_outcome m = YES <-> no_price m <= yes_price m)
  /\ (yes_price m = no_price m -> high_probability_outcome m = YES)
  /\ high_probability_price m
     = match high_probability_outcome m with
       | YES => yes_price m
       | NO => no_price m
       end
  /\ yes_price m <= high_probability_price m
  /\ no_price m <= high_probability_price m
  /\ max_probability m = high_probability_price m.
Proof.
  unfold high_probability_outcome, high_probability_price, max_probability,
    py_max.
  generalize (yes_price m) (no_price m). intros y n.
  repeat case_bool_decide; repeat split; try done; try qc_lra;
    intros; exfalso; subst; qc_lra.
Qed.

Lemma passes_band cfg markets m :
  m ∈ filter_markets cfg markets ->
  m ∈ markets /\ passes_all_six cfg m.
Proof.
  intros Hm. apply filter_markets_keeps in Hm as [? Hk].
  by rewrite <- keeps_iff_passes.
Qed.

(** A record whose [outcomePrices] is absent, is not a string, or does
    not decode still parses (when its numeric fields do), with both
    prices 0 and side YES; whenever the configured minimum probability is
    positive such a market is never selected by the filter. *)
Theorem unreadable_prices_never_selected (data : RawMarket) (m : Market) :
  parse_market data = Some m ->
  (r_outcomePrices data = None
   \/ (exists v, r_outcomePrices data = Some v /\ forall s, v <> JStr s)
   \/ (exists s, r_outcomePrices data = Some (JStr s)
                 /\ json_loads s = None)) ->
  yes_price m = 0 /\ no_price m = 0
  /\ high_probability_outcome m = YES
  /\ high_probability_price m = 0
  /\ forall cfg markets,
       0 < MIN_PROBABILITY cfg -> m ∉ filter_markets cfg markets.
Proof.
  intros Hparse Hbad.
  assert (Hprices : outcome_prices m = JList []).
  { unfold parse_market in Hparse.
    destruct (numeric_field (r_volume data)); [|done].
    destruct (numeric_field (r_liquidity data)); [|done].
    injection Hparse as <-. simpl. unfold decode_json_field.
    destruct Hbad as [->|[(v & -> & Hv)|(s & -> & Hs)]]; [done| |].
    - destruct (truthy v); [|done]. destruct v; try done. by destruct (Hv s).
    - rewrite Hs. by destruct (truthy (JStr s)). }
  assert (Hy : yes_price m = 0) by (unfold yes_price; by rewrite Hprices).
  assert (Hn : no_price m = 0) by (unfold no_price; by rewrite Hprices).
  assert (Hp : high_probability_price m = 0).
  { unfold high_probability_price, py_max. rewrite Hy, Hn.
    by case_bool_decide. }
  split; [done|]. split; [done|]. split.
  { unfold high_probability_outcome. rewrite Hy, Hn.
    by rewrite bool_decide_eq_true_2. }
  split; [done|].
  intros cfg markets Hmin Hm.
  apply passes_band in Hm as (_ & _ & _ & (Hlo & _) & _).
  unfold max_probability in Hlo. fold (high_probability_price m) in Hlo.
  rewrite Hp in Hlo. qc_lra.
Qed.

Lemma ascii_lower_idemp (c : ascii) : ascii_lower (ascii_lower c) = ascii_lower c.
Proof. by destruct c as [[] [] [] [] [] [] [] []]. Qed.

Lemma lower_idemp (s : string) : lower (lower s) = lower s.
Proof.
  induction s as [|c s IH]; simpl; [done|].
  by rewrite ascii_lower_idemp, IH.
Qed.

(** The two flags of a parsed record: a missing [acceptingOrders] counts
    as accepting; a value that is neither a boolean nor a string (null, a
    number) counts as not accepting, and such a market is never selected;
    a [closed] value that reads true is never selected; and the reading
    of a string ignores letter case. *)
Theorem flags_of_parsed_market (data : RawMarket) (m : Market) :
  parse_market data = Some m ->
  (r_acceptingOrders data = None -> accepting_orders m = true)
  /\ (r_closed data = None -> closed m = false)
  /\ (forall v, r_acceptingOrders data = Some v ->
                (forall b, v <> JBool b) -> (forall s, v <> JStr s) ->
                accepting_orders m = false
                /\ forall cfg markets, m ∉ filter_markets cfg markets)
  /\ (parse_bool (r_closed data) = true ->
      forall cfg markets, m ∉ filter_markets cfg markets)
  /\ (forall s, parse_bool (Some (JStr s))
                = parse_bool (Some (JStr (lower s)))).
Proof.
  intros Hparse.
  assert (Hflags : closed m = parse_bool (r_closed data)
                   /\ accepting_orders m
                      = parse_bool (Some (default (JBool true)
                                            (r_acceptingOrders data)))).
  { unfold parse_market in Hparse.
    destruct (numeric_field (r_volume data)); [|done].
    destruct (numeric_field (r_liquidity data)); [|done].
    by injection Hparse as <-. }
  destruct Hflags as [Hc Ha].
  split; [|split; [|split; [|split]]].
  - intros Hnone. by rewrite Ha, Hnone.
  - intros Hnone. by rewrite Hc, Hnone.
  - intros v Hv Hb Hs.
    assert (Hacc : accepting_orders m = false).
    { rewrite Ha, Hv. simpl. destruct v; try done.
      - by destruct (Hb b).
      - by destruct (Hs s). }
    split; [done|]. intros cfg markets Hm.
    apply passes_band in Hm as (_ & (_ & Hacc') & _). congruence.
  - intros Hclosed cfg markets Hm.
    apply passes_band in Hm as (_ & (Hc' & _) & _). congruence.
  - intros s. simpl. by rewrite lower_idemp.
Qed.

(** Every selected market has an end date that is not empty, reads as a
    time, and lies ahead by no more than the configured horizon: a market
    with no or an unreadable end date is never selected. *)
Theorem selected_market_has_end_date cfg markets m :
  m ∈ filter_markets cfg markets ->
  end_date m <> EmptyString
  /\ exists h, hours_from_now (end_date m) = Some h
               /\ 0 < h /\ h <= MAX_HOURS_UNTIL_END cfg.
Proof.
  intros Hm. apply passes_band in Hm as (_ & _ & (h & Hh & ? & ?) & _).
  unfold hours_until_end in Hh.
  case_bool_decide as He; [done|]. split; [done|].
  destruct (hours_from_now (end_date m)) as [h'|]; [|done].
  injection Hh as ->. by exists h.
Qed.

Lemma length_omap_le {A B} (f : A -> option B) (l : list A) :
  (length (omap f l) <= length l)%nat.
Proof.
  induction l as [|x l IH]; [done|].
  change (omap f (x :: l))
    with (match f x with Some y => y :: omap f l | None => omap f l end).
  destruct (f x); simpl; lia.
Qed.

Lemma length_omap_split {A B} (f : A -> option B) (l : list A) :
  length l
  = (length (omap f l) + length (filter (fun x => f x = None) l))%nat.
Proof.
  induction l as [|x l IH]; [done|].
  change (omap f (x :: l))
    with (match f x with Some y => y :: omap f l | None => omap f l end).
  rewrite filter_cons. destruct (f x) eqn:Hf; simpl; lia.
Qed.

(** The cut at the cap keeps the cheapest survivors: every selected
    market costs at most as much as every survivor the cap left out, and
    the number selected is the smaller of the cap and the number of
    survivors. *)
Theorem cap_keeps_cheapest cfg markets :
  let survivors := filter_loop cfg markets [] in
  let left_out := drop (MAX_TRADES_PER_RUN cfg) (sort_by_price survivors) in
  (forall a b, a ∈ filter_markets cfg markets -> b ∈ left_out ->
               high_probability_price a <= high_probability_price b)
  /\ filter_markets cfg markets ++ left_out ≡ₚ survivors
  /\ length (filter_markets cfg markets)
     = (MAX_TRADES_PER_RUN cfg `min` length survivors)%nat.
Proof.
  intros survivors left_out. split; [|split].
  - intros a b Ha Hb.
    apply (StronglySorted_app_1_elem_of by_price
             (filter_markets cfg markets) left_out); [|done..].
    unfold filter_markets, left_out. fold survivors.
    rewrite take_drop. apply sort_by_price_sorted.
  - unfold filter_markets, left_out. fold survivors.
    rewrite take_drop. apply sort_by_price_perm.
  - unfold filter_markets. fold survivors.
    by rewrite length_take, sort_by_price_perm.
Qed.

(** [scan]: the returned list is the filter's output on the records that
    parse (the second slice changes nothing); the counters satisfy
    filtered <= cap, filtered <= parsed <= served, and served = parsed +
    the number of records [parse_market] drops. *)
Theorem scan_counts cfg (markets_data : list RawMarket) :
  let markets := (scan cfg markets_data).1 in
  let stats := (scan cfg markets_data).2 in
  markets = filter_markets cfg (omap parse_market markets_data)
  /\ filtered_count stats = length markets
  /\ (filtered_count stats <= MAX_TRADES_PER_RUN cfg)%nat
  /\ (filtered_count stats <= total_parsed stats)%nat
  /\ (total_parsed stats <= total_api stats)%nat
  /\ non_crypto stats = total_parsed stats
  /\ total_api stats = length markets_data
  /\ total_api stats
     = (total_parsed stats
        + length (filter (fun d => parse_market d = None) markets_data))%nat.
Proof.
  unfold scan. simpl.
  assert (Hlen : (length (filter_markets cfg (omap parse_market markets_data))
                  <= MAX_TRADES_PER_RUN cfg)%nat).
  { unfold filter_markets. rewrite length_take. lia. }
  assert (Hid : take (MAX_TRADES_PER_RUN cfg)
                  (filter_markets cfg (omap parse_market markets_data))
                = filter_markets cfg (omap parse_market markets_data))
    by (by apply take_ge).
  rewrite Hid. repeat split; try done.
  - rewrite filter_markets_unfold.
    etrans; [apply sublist_length, sublist_take|].
    rewrite sort_by_price_perm. apply length_filter.
  - apply length_omap_le.
  - apply length_omap_split.
Qed.

End MarketProperties.

(** ** fetch_markets *)

Lemma starts_with_spec (kw s : string) :
  starts_with kw s = true <-> exists post, s = (kw ++ post)%string.
Proof.
  revert s. induction kw as [|a kw IH]; intros s; simpl.
  - split; [by exists s|done].
  - destruct s as [|b s]; [split; [done|by intros [? ?]]|].
    rewrite andb_true_iff, bool_decide_eq_true, IH. split.
    + intros [-> [post ->]]. by exists post.
    + intros [post [= -> ->]]. split; [done|by exists post].
Qed.

(** [contains] is Python's substring test. *)
Lemma contains_spec (kw s : string) :
  contains kw s = true
  <-> exists pre post, s = (pre ++ kw ++ post)%string.
Proof.
  induction s as [|c s IH]; simpl.
  - rewrite orb_false_r, starts_with_spec. split.
    + intros [post ->]. by exists EmptyString, post.
    + intros (pre & post & Heq). destruct pre; [by exists post|done].
  - rewrite orb_true_iff, starts_with_spec, IH. split.
    + intros [[post ->]|(pre & post & ->)].
      * by exists EmptyString, post.
      * by exists (String c pre), post.
    + intros (pre & post & Heq). destruct pre as [|c' pre]; simpl in Heq.
      * left. by exists post.
      * right. injection Heq as -> ->. by exists pre, post.
Qed.

(** [fetch_markets] returns nothing when the request fails; otherwise it
    returns, in the order served, exactly the records whose question, in
    lower case, contains none of the seven keywords as a substring
    (a record without a question is kept); filtering its output again
    changes nothing. *)
Theorem fetch_markets_drops_crypto (response : option (list RawMarket)) :
  (response = None -> fetch_markets response = [])
  /\ (forall markets, response = Some markets ->
        fetch_markets response `sublist_of` markets
        /\ forall m,
             m ∈ fetch_markets response
             <-> m ∈ markets
                 /\ forall kw pre post,
                      kw ∈ crypto_keywords ->
                      lower (default EmptyString (r_question m))
                      <> (pre ++ kw ++ post)%string)
  /\ fetch_markets (Some (fetch_markets response)) = fetch_markets response.
Proof.
  split; [by intros ->|]. split.
  - intros markets ->. simpl. split; [apply sublist_filter|].
    intros m. rewrite list_elem_of_filter. unfold is_crypto.
    split.
    + intros [Hno Hm]. split; [done|].
      intros kw pre post Hkw Heq.
      assert (Hyes : existsb
                (fun kw => contains kw
                             (lower (default EmptyString (r_question m))))
                crypto_keywords = true).
      { apply existsb_exists. exists kw. split.
        - by apply list_elem_of_In.
        - apply contains_spec. by exists pre, post. }
      congruence.
    + intros [Hm Hno]. split; [|done].
      apply not_true_is_false. intros Hyes.
      apply existsb_exists in Hyes as (kw & Hkw & Hc).
      apply contains_spec in Hc as (pre & post & Heq).
      apply list_elem_of_In in Hkw. by eapply Hno.
  - destruct response as [markets|]; [|done]. simpl.
    apply filter_all, Forall_forall. intros m Hm.
    by apply list_elem_of_filter in Hm as [? _].
Qed.

(** ** The trader's books *)

Section TraderBooks.

Context `{Builtins}.

(** A call either leaves the trader as it was (it raised or refused) or
    appends one position and one trade that agree with each other. *)
Lemma after_call_cases cfg self market amt now :
  after_call cfg self (market, amt, now) = self
  \/ exists trade pos,
       after_call cfg self (market, amt, now)
       = {| balance := balance self - high_probability_price market * Q2Qc 5;
            initial_balance := initial_balance self;
            positions := positions self ++ [pos];
            trade_history := trade_history self ++ [trade] |}
       /\ high_probability_price market <> 0
       /\ ~ balance self < high_probability_price market * Q2Qc 5
       /\ price trade = high_probability_price market
       /\ cost trade = price trade * Q2Qc 5
       /\ amount trade = Q2Qc 5
       /\ status trade = "simulated"%string
       /\ market_id trade = id market
       /\ outcome trade = high_probability_outcome market
       /\ timestamp trade = now
       /\ pos_market_id pos = market_id trade
       /\ pos_outcome pos = outcome trade
       /\ pos_price pos = price trade
       /\ pos_shares pos = amount trade
       /\ pos_cost pos = cost trade
       /\ pos_timestamp pos = timestamp trade
       /\ potential_payout pos = Q2Qc 5
       /\ profit_if_win pos = Q2Qc 5 - pos_cost pos.
Proof.
  unfold after_call.
  destruct (decide (high_probability_price market = 0)) as [Hp|Hp].
  { left. by rewrite execute_trade_raises. }
  destruct (decide (balance self < high_probability_price market * Q2Qc 5))
    as [Hlt|Hge].
  { left. by rewrite execute_trade_refuses. }
  right. rewrite (execute_trade_accepts _ _ _ _ _ Hp Hge).
  eexists _, _. split; [reflexivity|]. by repeat split.
Qed.


Lemma after_call_balance_le cfg self call :
  0 <= high_probability_price call.1.1 ->
  balance (after_call cfg self call) <= balance self.
Proof.
  destruct call as [[market amt] now]. intros Hp. simpl in Hp.
  destruct (after_call_cases cfg self market amt now)
    as [->|(t & p & -> & _)]; [apply Qcle_refl|].
  simpl. qc_lra.
Qed.

Lemma states_along_balance_le cfg calls :
  Forall (fun call => 0 <= high_probability_price call.1.1) calls ->
  forall self,
    Forall (fun st => balance st <= balance self)
           (states_along cfg self calls).
Proof.
  induction 1 as [|call calls Hp Hcalls IH]; intros self; simpl.
  - repeat constructor. apply Qcle_refl.
  - constructor; [apply Qcle_refl|].
    eapply Forall_impl; [apply IH|]. simpl. intros st Hst.
    eapply Qcle_trans; [exact Hst|]. by apply after_call_balance_le.
Qed.

(** The balance never increases along calls on markets whose dominant
    price is not negative: each state's balance is at most the balance
    of every earlier state. *)
Theorem balance_never_increases cfg self calls :
  Forall (fun call => 0 <= high_probability_price call.1.1) calls ->
  StronglySorted (fun earlier later => balance later <= balance earlier)
                 (states_along cfg self calls).
Proof.
  intros Hcalls. revert self.
  induction Hcalls as [|call calls Hp Hcalls IH]; intros self; simpl.
  - repeat constructor.
  - constructor; [apply IH|].
    eapply Forall_impl; [by apply states_along_balance_le|].
    simpl. intros st Hst.
    eapply Qcle_trans; [exact Hst|]. by apply after_call_balance_le.
Qed.


End TraderBooks.

Lemma balance_never_increases_witness :
  StronglySorted (fun earlier later => balance later <= balance earlier)
    (@states_along sample_builtins config (new_trader (Q2Qc 10))
       [(market_97, None, "2026-01-01T00:00:00Z"%string);
        (market_unpriced, None, "2026-01-01T00:00:01Z"%string);
        (market_97, None, "2026-01-01T00:00:02Z"%string)]).
Proof.
  apply (@balance_never_increases sample_builtins).
  repeat constructor; by vm_compute.
Defined.


(** ** The ledger over many runs *)

Lemma record_run_appends trades run_data uuid now :
  runs (record_run trades run_data uuid now)
  = runs trades
    ++ [{| run_id := uuid;
           run_timestamp := now;
           virtual_balance_before := balance_before run_data;
           run_planned_trades := planned_trades run_data;
           run_executed_trades := executed_trades run_data;
           run_scan_info := scan_info run_data;
           run_summary := summary run_data |}]
  /\ total_payout (record_run trades run_data uuid now) = total_payout trades
  /\ win_count (record_run trades run_data uuid now) = win_count trades
  /\ loss_count (record_run trades run_data uuid now) = loss_count trades.
Proof. done. Qed.


(** ** What reconciliation reports *)

Lemma dedupe_keys_NoDup all_trades unique :
  NoDup unique.*1 -> NoDup (dedupe all_trades unique).*1.
Proof.
  revert unique. induction all_trades as [|t rest IH]; intros unique Hnd;
    simpl; [done|].
  apply IH. destruct (bool_decide _ && bool_decide _) eqn:Hc; [|done].
  apply andb_true_iff in Hc as [_ Hnew%bool_decide_eq_true].
  rewrite fmap_app. apply NoDup_app. split; [done|]. split.
  - intros x Hx Hx'. apply list_elem_of_singleton in Hx'. by subst.
  - apply NoDup_singleton.
Qed.

Lemma dedupe_elements all_trades unique mid t :
  (mid, t) ∈ dedupe all_trades unique ->
  (mid, t) ∈ unique
  \/ (t ∈ all_trades /\ market_id (entry_trade t) = mid
      /\ mid <> EmptyString).
Proof.
  revert unique. induction all_trades as [|t0 rest IH]; intros unique;
    simpl; [by left|].
  intros Hin. apply IH in Hin as [Hin|(? & ? & ?)].
  - destruct (bool_decide _ && bool_decide _) eqn:Hc; [|by left].
    apply andb_true_iff in Hc as [Hne%bool_decide_eq_true _].
    apply elem_of_app in Hin as [?|Hin]; [by left|].
    apply list_elem_of_singleton in Hin. injection Hin as -> ->.
    right. split; [by left|done].
  - right. split; [by right|done].
Qed.

Lemma dedupe_keeps unique all_trades mid :
  mid ∈ unique.*1 -> mid ∈ (dedupe all_trades unique).*1.
Proof.
  revert unique. induction all_trades as [|t rest IH]; intros unique Hin;
    simpl; [done|].
  apply IH. destruct (bool_decide _ && bool_decide _); [|done].
  rewrite fmap_app. apply elem_of_app. by left.
Qed.

Lemma dedupe_complete all_trades unique t :
  t ∈ all_trades -> market_id (entry_trade t) <> EmptyString ->
  market_id (entry_trade t) ∈ (dedupe all_trades unique).*1.
Proof.
  revert unique. induction all_trades as [|t0 rest IH]; intros unique Hin Hne;
    [by apply elem_of_nil in Hin|].
  apply elem_of_cons in Hin as [->|Hin]; simpl; [|by apply IH].
  apply dedupe_keeps.
  rewrite bool_decide_eq_true_2 by done. simpl.
  case_bool_decide as Hnew.
  - rewrite fmap_app. apply elem_of_app. right. by left.
  - done.
Qed.

Lemma query_loop_calls api unique acc calls :
  (query_loop api unique acc calls).2 = calls ++ unique.*1.
Proof.
  revert acc calls. induction unique as [|[mid t] rest IH]; intros acc calls;
    simpl; [by rewrite app_nil_r|].
  by rewrite IH, <- app_assoc.
Qed.

Lemma query_loop_invariant (P : Settlement -> Prop) api unique acc calls :
  (forall mid t a, (mid, t) ∈ unique -> P a -> P (classify (api mid) t a)) ->
  P acc -> P (query_loop api unique acc calls).1.
Proof.
  revert acc calls. induction unique as [|[mid t] rest IH];
    intros acc calls Hstep Hacc; simpl; [done|].
  apply IH.
  - intros mid' t' a Hin. apply Hstep. by right.
  - apply Hstep; [by left|done].
Qed.

(** One query adds the trade to exactly one of the two lists. *)
Lemma classify_counts response t acc :
  (length (resolved (classify response t acc))
   + length (unresolved (classify response t acc))
   = S (length (resolved acc) + length (unresolved acc)))%nat.
Proof.
  unfold classify.
  destruct response as [[| | | | |market]|]; simpl;
    try (rewrite length_app; simpl; lia).
  destruct (truthy _ && truthy _ && negb _); simpl;
    [rewrite length_app; simpl; lia|].
  destruct (truthy _); simpl; rewrite length_app; simpl; lia.
Qed.

Lemma query_loop_counts api unique acc calls :
  (length (resolved (query_loop api unique acc calls).1)
   + length (unresolved (query_loop api unique acc calls).1)
   = length (resolved acc) + length (unresolved acc) + length unique)%nat.
Proof.
  revert acc calls. induction unique as [|[mid t] rest IH]; intros acc calls;
    simpl; [lia|].
  rewrite IH, classify_counts. lia.
Qed.

Lemma classify_unsettled response t acc :
  is_settled t = false ->
  newly_resolved acc = resolved acc ->
  newly_resolved (classify response t acc)
  = resolved (classify response t acc).
Proof.
  intros Ht Hacc. unfold classify.
  destruct response as [[| | | | |market]|]; simpl; try done.
  destruct (truthy _ && truthy _ && negb _); simpl;
    [by rewrite Ht, Hacc|].
  destruct (truthy _); simpl; [by rewrite Ht, Hacc|done].
Qed.

Lemma classify_entries (P Q : TradeEntry -> Prop) response t acc :
  (forall res, truthy res = true -> P (mark t res)) ->
  Q t ->
  Forall P (resolved acc) -> Forall Q (unresolved acc) ->
  Forall P (resolved (classify response t acc))
  /\ Forall Q (unresolved (classify response t acc)).
Proof.
  intros HP HQ Hr Hu. unfold classify.
  destruct response as [[| | | | |market]|]; simpl;
    try (split; [done|apply Forall_app; split; [done|by constructor]]).
  destruct (truthy _ && truthy _ && negb _) eqn:Hc; simpl.
  - apply andb_true_iff in Hc as [[_ Hres]%andb_true_iff _].
    split; [|done]. apply Forall_app. split; [done|].
    constructor; [by apply HP|done].
  - destruct (truthy _); simpl.
    + split; [|done]. apply Forall_app. split; [done|].
      constructor; [by apply HP|done].
    + split; [done|]. apply Forall_app. split; [done|by constructor].
Qed.

Lemma collect_unsettled_elem data t :
  t ∈ collect_unsettled data <-> t ∈ ledger_trades data /\ is_settled t = false.
Proof. rewrite collect_unsettled_spec, list_elem_of_filter. tauto. Qed.

(** The report of one reconciliation, for every ledger file and every
    behaviour of the API: the newly-resolved list is the resolved list;
    each request is for a different, non-empty market id of an
    unsettled trade, and every such id is requested; each request puts one
    trade into exactly one of resolved and unresolved; a resolved entry is
    an unsettled trade of the ledger marked settled with a truthy
    resolution; an unresolved entry is an unsettled trade of the ledger,
    unchanged. *)
Theorem check_settlements_report (trades_file : option Ledger)
    (api : string -> option pyval) :
  let report := (check_settlements trades_file api).1 in
  let requests := (check_settlements trades_file api).2 in
  let pending := collect_unsettled (default empty_ledger trades_file) in
  newly_resolved report = resolved report
  /\ NoDup requests
  /\ (forall mid, mid ∈ requests <->
                  mid <> EmptyString
                  /\ exists t, t ∈ pending
                               /\ market_id (entry_trade t) = mid)
  /\ (length (resolved report) + length (unresolved report)
      = length requests)%nat
  /\ Forall (fun e =>
               is_settled e = true
               /\ (exists res, resolution e = Some res /\ truthy res = true)
               /\ exists t, t ∈ pending /\ entry_trade e = entry_trade t)
            (resolved report)
  /\ Forall (fun t => t ∈ pending) (unresolved report).
Proof.
  unfold check_settlements.
  destruct trades_file as [data|]; simpl.
  2: { split; [done|]. split; [constructor|]. split.
       - intros mid. split; [by intros ?%elem_of_nil|].
         by intros (_ & t & ?%elem_of_nil & _).
       - split; [done|]. split; constructor. }
  case_bool_decide as Hnil.
  { rewrite Hnil. simpl. split; [done|]. split; [constructor|]. split.
    - intros mid. split; [by intros ?%elem_of_nil|].
      by intros (_ & t & ?%elem_of_nil & _).
    - split; [done|]. split; constructor. }
  set (pending := collect_unsettled data).
  set (unique := dedupe pending []).
  assert (Hun : forall mid t, (mid, t) ∈ unique ->
                  t ∈ pending /\ market_id (entry_trade t) = mid
                  /\ mid <> EmptyString).
  { intros mid t Hin. apply dedupe_elements in Hin as [Hin|?]; [|done].
    by apply elem_of_nil in Hin. }
  split; [|split; [|split; [|split]]].
  - apply (query_loop_invariant
             (fun a => newly_resolved a = resolved a)); [|done].
    intros mid t a Hin Ha. apply classify_unsettled; [|done].
    apply Hun in Hin as [Hin _].
    by apply collect_unsettled_elem in Hin as [_ ?].
  - rewrite query_loop_calls. simpl. by apply dedupe_keys_NoDup, NoDup_nil.
  - intros mid. rewrite query_loop_calls. simpl. split.
    + intros Hin. apply list_elem_of_fmap in Hin as ([mid' t] & -> & Hin).
      apply Hun in Hin as (? & ? & ?). split; [done|by exists t].
    + intros (Hne & t & Hin & <-). by apply dedupe_complete.
  - rewrite query_loop_counts, query_loop_calls. simpl.
    by rewrite length_fmap.
  - apply (query_loop_invariant
             (fun a =>
                Forall (fun e =>
                          is_settled e = true
                          /\ (exists res, resolution e = Some res
                                          /\ truthy res = true)
                          /\ exists t, t ∈ pending
                                       /\ entry_trade e = entry_trade t)
                       (resolved a)
                /\ Forall (fun t => t ∈ pending) (unresolved a)));
      [|by split; constructor].
    intros mid t a Hin [Hr Hu]. apply Hun in Hin as (Hin & _).
    apply classify_entries; try done.
    intros res Hres. repeat split; [by eexists|by exists t].
Qed.

(** While the API fails, answers something that is not an object, or
    reports every market open, nothing is resolved: every requested
    trade stays unresolved, to be asked again in the next cycle. *)
Theorem open_or_failing_api_resolves_nothing (trades_file : option Ledger)
    (api : string -> option pyval) :
  (forall mid market,
     api mid = Some (JDict market) ->
     truthy (default (JBool false) (market !! "closed")) = false) ->
  let report := (check_settlements trades_file api).1 in
  resolved report = [] /\ newly_resolved report = []
  /\ length (unresolved report)
     = length (check_settlements trades_file api).2.
Proof.
  intros Hopen. unfold check_settlements.
  destruct trades_file as [data|]; simpl; [|done].
  case_bool_decide; [done|].
  assert (Hinv : resolved (query_loop api (dedupe (collect_unsettled data) [])
                             no_settlement []).1 = []
                 /\ newly_resolved
                      (query_loop api (dedupe (collect_unsettled data) [])
                         no_settlement []).1 = []).
  { apply (query_loop_invariant
             (fun a => resolved a = [] /\ newly_resolved a = []));
      [|done].
    intros mid t a _ [Hr Hn]. unfold classify.
    destruct (api mid) as [[| | | | |market]|] eqn:Hapi; simpl; try done.
    rewrite (Hopen _ _ Hapi). by simpl. }
  destruct Hinv as [Hr Hn]. split; [done|]. split; [done|].
  pose proof (query_loop_counts api (dedupe (collect_unsettled data) [])
                no_settlement []) as Hc.
  rewrite Hr in Hc. simpl in Hc. rewrite Hc, query_loop_calls. simpl.
  by rewrite length_fmap.
Qed.

(** The cron report's reconciliation sends the same requests as the
    scanner's and classifies every trade the same way, with the same
    resolutions; the only difference is that its resolved entries keep
    the ledger's [settled] value, so they are not marked settled. *)
Theorem cron_report_agrees_with_scanner (trades_file : option Ledger)
    (api : string -> option pyval) :
  let scanner := check_settlements trades_file api in
  let cron := cron_check_settlements trades_file api in
  cron.2 = scanner.2
  /\ unresolved cron.1 = unresolved scanner.1
  /\ resolved scanner.1
     = (fun e => mark e (default JNull (resolution e))) <$> resolved cron.1
  /\ newly_resolved scanner.1
     = (fun e => mark e (default JNull (resolution e)))
         <$> newly_resolved cron.1
  /\ Forall (fun e => is_settled e = false) (resolved cron.1).
Proof.
  unfold check_settlements, cron_check_settlements.
  destruct trades_file as [data|]; simpl; [|by repeat split].
  case_bool_decide; [by repeat split|].
  set (f := fun e => mark e (default JNull (resolution e))).
  assert (Hpending : forall mid t,
            (mid, t) ∈ dedupe (collect_unsettled data) [] ->
            is_settled t = false).
  { intros mid t Hin. apply dedupe_elements in Hin as [Hin|(Hin & _)].
    - by apply elem_of_nil in Hin.
    - by apply collect_unsettled_elem in Hin as [_ ?]. }
  revert Hpending. generalize (dedupe (collect_unsettled data) []).
  intros unique Hpending.
  assert (Hgen : forall acc acc' calls,
            unresolved acc' = unresolved acc ->
            resolved acc = f <$> resolved acc' ->
            newly_resolved acc = f <$> newly_resolved acc' ->
            Forall (fun e => is_settled e = false) (resolved acc') ->
            (cron_query_loop api unique acc' calls).2
            = (query_loop api unique acc calls).2
            /\ unresolved (cron_query_loop api unique acc' calls).1
               = unresolved (query_loop api unique acc calls).1
            /\ resolved (query_loop api unique acc calls).1
               = f <$> resolved (cron_query_loop api unique acc' calls).1
            /\ newly_resolved (query_loop api unique acc calls).1
               = f <$> newly_resolved
                         (cron_query_loop api unique acc' calls).1
            /\ Forall (fun e => is_settled e = false)
                      (resolved (cron_query_loop api unique acc' calls).1)).
  { induction unique as [|[mid t] rest IH]; intros acc acc' calls Hu Hr Hn Hs;
      simpl; [done|].
    assert (Ht : is_settled t = false) by (eapply Hpending; by left).
    apply IH.
    - intros mid' t' Hin. eapply Hpending. by right.
    - unfold classify, cron_classify.
      destruct (api mid) as [[| | | | |market]|]; simpl; try by rewrite Hu.
      destruct (market !! "closed") as [c|]; simpl; [|by rewrite Hu].
      destruct (truthy c); simpl; [|by rewrite Hu].
      by destruct (truthy _ && negb _).
    - unfold classify, cron_classify.
      destruct (api mid) as [[| | | | |market]|]; simpl; try done.
      destruct (market !! "closed") as [c|]; simpl; [|done].
      destruct (truthy c); simpl; [|done].
      destruct (truthy _ && negb _); simpl; by rewrite fmap_app, Hr.
    - unfold classify, cron_classify.
      destruct (api mid) as [[| | | | |market]|]; simpl; try done.
      destruct (market !! "closed") as [c|]; simpl; [|done].
      destruct (truthy c); simpl; [|done].
      destruct (truthy _ && negb _); simpl; by rewrite Ht, fmap_app, Hn.
    - unfold cron_classify.
      destruct (api mid) as [[| | | | |market]|]; simpl; try done.
      destruct (truthy _); simpl; [|done].
      destruct (truthy _ && negb _); simpl;
        (apply Forall_app; split; [done|by repeat constructor]). }
  by apply Hgen.
Qed.

Lemma dedupe_first all_trades unique mid t :
  (mid, t) ∈ dedupe all_trades unique ->
  (mid, t) ∈ unique
  \/ ((mid ∉ unique.*1)
      /\ market_id (entry_trade t) = mid
      /\ exists pre post,
           all_trades = pre ++ t :: post
           /\ Forall (fun t' => market_id (entry_trade t') <> mid) pre).
Proof.
  revert unique. induction all_trades as [|t0 rest IH]; intros unique;
    simpl; [by left|].
  intros Hin.
  assert (Hne : (mid, t) ∈ unique \/ mid <> EmptyString).
  { apply (dedupe_elements (t0 :: rest)) in Hin as [?|(_ & _ & ?)]; auto. }
  apply IH in Hin as [Hin|(Hnot & Hid & pre & post & -> & Hpre)].
  - destruct (bool_decide _ && bool_decide _) eqn:Hc; [|by left].
    apply andb_true_iff in Hc as [_ Hnew%bool_decide_eq_true].
    apply elem_of_app in Hin as [?|Hin]; [by left|].
    apply list_elem_of_singleton in Hin. injection Hin as -> ->.
    right. split; [done|]. split; [done|]. by exists [], rest.
  - destruct Hne as [?|Hne]; [by left|].
    assert (Hnot' : mid ∉ unique.*1).
    { intros Hm. apply Hnot.
      destruct (bool_decide _ && bool_decide _); [|done].
      rewrite fmap_app. apply elem_of_app. by left. }
    right. split; [done|]. split; [done|].
    exists (t0 :: pre), post. split; [done|]. constructor; [|done].
    intros Heq. apply Hnot.
    rewrite Heq, bool_decide_eq_true_2, bool_decide_eq_true_2 by done.
    simpl. rewrite fmap_app. apply elem_of_app. right. by left.
Qed.

(** First occurrence wins: the trade reported for a market, resolved or
    unresolved, is the first unsettled trade of the ledger with that
    market id; a later unsettled trade on the same market is not
    reported in this reconciliation. *)
Theorem reported_trade_is_first_occurrence (trades_file : option Ledger)
    (api : string -> option pyval) :
  let report := (check_settlements trades_file api).1 in
  let pending := collect_unsettled (default empty_ledger trades_file) in
  Forall (fun e =>
            exists t pre post,
              entry_trade e = entry_trade t
              /\ pending = pre ++ t :: post
              /\ Forall (fun t' => market_id (entry_trade t')
                                   <> market_id (entry_trade t)) pre)
         (resolved report ++ unresolved report).
Proof.
  unfold check_settlements.
  destruct trades_file as [data|]; simpl; [|constructor].
  case_bool_decide; [constructor|].
  set (pending := collect_unsettled data).
  set (first := fun e : TradeEntry =>
                  exists t pre post,
                    entry_trade e = entry_trade t
                    /\ pending = pre ++ t :: post
                    /\ Forall (fun t' => market_id (entry_trade t')
                                         <> market_id (entry_trade t)) pre).
  apply Forall_app.
  apply (query_loop_invariant
           (fun a => Forall first (resolved a) /\ Forall first (unresolved a)));
    [|by split; constructor].
  intros mid t a Hin [Hr Hu].
  apply dedupe_first in Hin as [Hin|(_ & Hid & pre & post & Hsplit & Hpre)];
    [by apply elem_of_nil in Hin|].
  assert (Ht : first t).
  { exists t, pre, post. by rewrite Hid. }
  by apply classify_entries.
Qed.

(** ** One cycle and the loop of cycles *)

Section CycleProperties.

Context `{Builtins}.









(** The shape of [run_once]: nothing happens to the bot when no market
    qualifies; otherwise the trading loop runs on the candidates and,
    unless it raised, its run is recorded and saved. *)
Lemma run_once_cases cfg bot api markets_data now uuid :
  let markets := (scan cfg markets_data).1 in
  let stats := (scan cfg markets_data).2 in
  let settlement := check_settlements (trades_file bot) api in
  let loop := trade_loop cfg markets now (fresh_loop (trader bot)) in
  let r := run_once cfg bot api markets_data now uuid in
  cycle_settlement r.1 = settlement.1
  /\ cycle_requests r.1 = settlement.2
  /\ ((markets = [] /\ r.2 = bot /\ cycle_log r.1 = []
       /\ exists rd, cycle_result r.1 = Ok rd
                     /\ balance_before rd = balance (trader bot)
                     /\ balance_after rd = balance (trader bot)
                     /\ planned_trades rd = []
                     /\ executed_trades rd = [])
      \/ (markets <> [] /\ cycle_log r.1 = loop_log loop.1
          /\ trader r.2 = loop_trader loop.1
          /\ ((exists e, loop.2 = Some e /\ cycle_result r.1 = Raise e
                         /\ recorder r.2 = recorder bot
                         /\ trades_file r.2 = trades_file bot)
              \/ (loop.2 = None
                  /\ exists rd,
                       cycle_result r.1 = Ok rd
                       /\ balance_before rd = balance (trader bot)
                       /\ balance_after rd = balance (loop_trader loop.1)
                       /\ planned_trades rd = plan cfg <$> markets
                       /\ executed_trades rd = loop_executed loop.1
                       /\ recorder r.2
                          = record_run (recorder bot) rd uuid now
                       /\ trades_file r.2 = Some (recorder r.2))))).
Proof.
  unfold run_once, fresh_loop.
  destruct (check_settlements (trades_file bot) api) as [settlement requests].
  destruct (scan cfg markets_data) as [markets stats]. simpl.
  case_bool_decide as Hm.
  { simpl. split; [done|]. split; [done|]. left.
    repeat split; try done. by eexists. }
  destruct (trade_loop cfg markets now _) as [st [e|]]; simpl.
  - split; [done|]. split; [done|]. right.
    repeat split; try done. left. by exists e.
  - split; [done|]. split; [done|]. right.
    repeat split; try done. right. split; [done|]. by eexists.
Qed.



(** A cycle without candidates leaves the bot as it was: no run is
    recorded and the file is not written, although the settlement
    requests were sent.  A cycle with candidates that returns records
    exactly one run and saves the ledger, even when nothing was bought. *)
Theorem run_once_records_one_run cfg bot api markets_data now uuid :
  ((scan cfg markets_data).1 = [] ->
   (run_once cfg bot api markets_data now uuid).2 = bot)
  /\ ((scan cfg markets_data).1 <> [] ->
      forall run_data,
        cycle_result (run_once cfg bot api markets_data now uuid).1
        = Ok run_data ->
        let bot' := (run_once cfg bot api markets_data now uuid).2 in
        recorder bot' = record_run (recorder bot) run_data uuid now
        /\ trades_file bot' = Some (recorder bot')
        /\ length (runs (recorder bot')) = S (length (runs (recorder bot)))).
Proof.
  destruct (run_once_cases cfg bot api markets_data now uuid)
    as (_ & _ & [(Hnil & Hbot & _)
                |(Hne & _ & _ & [(e & _ & Hrd & _)
                                |(_ & rd & Hrd & _ & _ & _ & _ & Hrec & Hf)])]).
  - split; [done|]. by intros Hne.
  - split; [by intros Hnil|]. intros _ run_data Hres.
    by rewrite Hrd in Hres.
  - split; [by intros Hnil|]. intros _ run_data Hres.
    rewrite Hrd in Hres. injection Hres as <-. cbv zeta.
    rewrite Hf, Hrec. repeat split.
    destruct (record_run_appends (recorder bot) rd uuid now) as [-> _].
    rewrite length_app. simpl. lia.
Qed.


End CycleProperties.

(** ** The loop of cycles, the ledger and the dashboard *)

Section LoopProperties.

Context `{Builtins}.




Lemma length_three_way {A} (P Q : A -> bool) (l : list A) :
  length l
  = (length (filter (fun x => P x = false) l)
     + length (filter (fun x => P x = true /\ Q x = false) l)
     + length (filter (fun x => P x = true /\ Q x = true) l))%nat.
Proof.
  induction l as [|x l IH]; [done|].
  rewrite !filter_cons. simpl.
  destruct (P x), (Q x); simpl;
    repeat (rewrite decide_True by (try split; done); simpl);
    repeat (rewrite decide_False by (try intros [? ?]; done); simpl);
    repeat (rewrite decide_True by (try split; done); simpl); lia.
Qed.


Lemma roi_never_raises (profit pending : Qc) :
  exists roi,
    (if bool_decide (0 < pending)
     then q ← py_div profit pending; Ok (q * Q2Qc 100)
     else Ok 0) = Ok roi.
Proof.
  case_bool_decide as Hpos; [|by eexists].
  unfold py_div. rewrite bool_decide_eq_false_2; [by eexists|].
  intros Hz. rewrite Hz in Hpos. by apply Qclt_not_eq in Hpos.
Qed.


(** [calculate_stats] never raises (the division of [roi] is guarded),
    and its counters split the stored trades three ways: pending, settled
    and not cancelled, settled and cancelled.  When every cancelled trade
    is also settled, total = pending + settled + cancelled. *)
Theorem calculate_stats_counts cfg (data : Ledger) :
  exists stats,
    calculate_stats cfg data = Ok stats
    /\ dash_total_trades stats = length (ledger_trades data)
    /\ dash_total_trades stats
       = (dash_pending stats + dash_settled stats
          + length (filter (fun t => is_settled t = true
                                     /\ is_cancelled t = true)
                           (ledger_trades data)))%nat
    /\ (Forall (fun t => is_cancelled t = true -> is_settled t = true)
               (ledger_trades data) ->
        dash_total_trades stats
        = (dash_pending stats + dash_settled stats
           + dash_cancelled stats)%nat)
    /\ dash_potential_profit stats
       = dash_potential_payout stats - dash_pending_cost stats
    /\ dash_balance stats = VIRTUAL_BALANCE cfg - dash_pending_cost stats.
Proof.
  unfold calculate_stats.
  edestruct roi_never_raises as [roi ->]. simpl.
  eexists. split; [done|]. simpl.
  split; [done|]. split; [apply length_three_way|].
  split; [|done].
  intros Hall. rewrite (length_three_way is_settled is_cancelled) at 1.
  f_equal. f_equal.
  induction Hall as [|t l Ht _ IH]; [done|].
  rewrite !filter_cons.
  destruct (is_cancelled t) eqn:Hc.
  - rewrite Ht by done.
    rewrite !decide_True by (try split; done). simpl. by rewrite IH.
  - rewrite !decide_False by (try intros [? ?]; congruence). done.
Qed.


End LoopProperties.

(** ** The further properties on the sample data *)

Lemma unreadable_prices_never_selected_witness :
  exists m,
    @parse_market sample_builtins raw_no_prices = Some m
    /\ @yes_price sample_builtins m = 0
    /\ @no_price sample_builtins m = 0
    /\ m ∉ @filter_markets sample_builtins config [m; market_95].
Proof.
  eexists. split; [reflexivity|].
  destruct (@unreadable_prices_never_selected sample_builtins raw_no_prices
              _ eq_refl (or_introl eq_refl)) as (Hy & Hn & _ & _ & Hsel).
  split; [exact Hy|]. split; [exact Hn|]. apply Hsel. by vm_compute.
Defined.

Lemma flags_of_parsed_market_witness :
  exists m,
    @parse_market sample_builtins raw_no_prices = Some m
    /\ accepting_orders m = true /\ closed m = false.
Proof.
  eexists. split; [reflexivity|].
  destruct (@flags_of_parsed_market sample_builtins raw_no_prices
              _ eq_refl) as (Ha & Hc & _).
  split; [by apply Ha|by apply Hc].
Defined.

Lemma selected_market_has_end_date_witness :
  end_date market_95 <> EmptyString
  /\ exists h, sample_clock (end_date market_95) = Some h
               /\ 0 < h /\ h <= MAX_HOURS_UNTIL_END config.
Proof.
  apply (@selected_market_has_end_date sample_builtins config
           [market_unpriced; market_95] market_95).
  assert (Hout : @filter_markets sample_builtins config
                   [market_unpriced; market_95] = [market_95])
    by (by vm_compute).
  rewrite Hout. by left.
Defined.

Lemma open_or_failing_api_resolves_nothing_witness :
  resolved (check_settlements (trades_file bot_after_buy) api_open).1 = []
  /\ newly_resolved
       (check_settlements (trades_file bot_after_buy) api_open).1 = []
  /\ length (unresolved
               (check_settlements (trades_file bot_after_buy) api_open).1)
     = length (check_settlements (trades_file bot_after_buy) api_open).2.
Proof.
  apply (open_or_failing_api_resolves_nothing
           (trades_file bot_after_buy) api_open).
  intros mid market [= <-]. reflexivity.
Defined.






(** The loop on the samples: the market is bought in the first and the
    third cycle, the outage in between records nothing, and a crypto
    question never reaches the trader. *)
Example run_loop_on_samples :
  let r := @run_loop sample_builtins config fresh_bot
             [input_buy_95; input_outage; input_buy_95] in
  length r.1 = 3%nat
  /\ length (runs (recorder r.2)) = 2%nat
  /\ market_id <$> trade_history (trader r.2) = ["m95"; "m95"]%string
  /\ fetch_markets (Some [raw_bitcoin; raw_95]) = [raw_95].
Proof. by vm_compute. Qed.
